(** * rollup-plugin-vue: the single-file-component entry transform (src/sfc.ts)

    A shallow embedding of [transformSFCEntry] and of the helpers it calls
    ([genTemplateCode], [genScriptCode], [genStyleCode], [getCustomBlock],
    [genCSSModulesCode], [attrsToQuery]), together with the properties of
    the virtual-address protocol they implement.

    JavaScript strings are modelled as byte strings (their UTF-8 encoding),
    objects used as maps with a meaningful iteration order as association
    lists, the process-wide descriptor cache as a [gmap]. *)

From Stdlib Require Import String Ascii List Bool Arith Lia DecimalString.
From Stdlib Require DecimalNat.
From stdpp Require Import base gmap strings.
Import ListNotations.

Local Open Scope string_scope.

(** ** Strings *)

Module Str.

(** [s.startsWith(p)] *)
Fixpoint starts_with (p s : string) : bool :=
  match p, s with
  | EmptyString, _ => true
  | String a p', String b s' => Ascii.eqb a b && starts_with p' s'
  | String _ _, EmptyString => false
  end.

(** [s.includes(p)] *)
Fixpoint includes (p s : string) : bool :=
  starts_with p s ||
  match s with
  | EmptyString => false
  | String _ s' => includes p s'
  end.

(** [xs.join(sep)] *)
Fixpoint join (sep : string) (xs : list string) : string :=
  match xs with
  | [] => ""
  | [x] => x
  | x :: rest => x ++ sep ++ join sep rest
  end.

(** Template-literal rendering of a non-negative integer, [`${i}`]. *)
Definition of_nat (n : nat) : string :=
  NilEmpty.string_of_uint (Nat.to_uint n).

(** JavaScript truthiness of a string: only the empty string is falsy. *)
Definition truthy (s : string) : bool :=
  match s with
  | EmptyString => false
  | String _ _ => true
  end.

(** [s.startsWith(p)], returning what follows the prefix. *)
Fixpoint strip_prefix (p s : string) : option string :=
  match p, s with
  | EmptyString, _ => Some s
  | String a p', String b s' =>
      if Ascii.eqb a b then strip_prefix p' s' else None
  | String _ _, EmptyString => None
  end.

(** [xs.join('')] *)
Definition concat (xs : list string) : string :=
  fold_right append "" xs.

(** The double-quote character, the backslash and the line feed. *)
Definition dquote : ascii := ascii_of_nat 34.
Definition backslash : ascii := ascii_of_nat 92.
Definition nl : string := String (ascii_of_nat 10) "".

End Str.

(** ** Hexadecimal digits *)

Definition hex_digit_upper (n : nat) : ascii :=
  match n with
  | 0 => "0" | 1 => "1" | 2 => "2" | 3 => "3" | 4 => "4" | 5 => "5"
  | 6 => "6" | 7 => "7" | 8 => "8" | 9 => "9" | 10 => "A" | 11 => "B"
  | 12 => "C" | 13 => "D" | 14 => "E" | _ => "F"
  end%char.

Definition hex_digit_lower (n : nat) : ascii :=
  match n with
  | 0 => "0" | 1 => "1" | 2 => "2" | 3 => "3" | 4 => "4" | 5 => "5"
  | 6 => "6" | 7 => "7" | 8 => "8" | 9 => "9" | 10 => "a" | 11 => "b"
  | 12 => "c" | 13 => "d" | 14 => "e" | _ => "f"
  end%char.

(** ** [querystring.escape]

    Node's [qs.escape] keeps the characters [A-Za-z0-9-_.!~*'()] and
    writes every other byte of the UTF-8 encoding as [%XX] with upper-case
    hexadecimal digits. *)

Module qs.

Definition unreserved (c : ascii) : bool :=
  let n := nat_of_ascii c in
  (((65 <=? n) && (n <=? 90)) ||     (* A-Z *)
   ((97 <=? n) && (n <=? 122)) ||    (* a-z *)
   ((48 <=? n) && (n <=? 57)) ||     (* 0-9 *)
   (n =? 45) || (n =? 95) || (n =? 46) || (n =? 33) ||   (* - _ . ! *)
   (n =? 126) || (n =? 42) || (n =? 39) || (n =? 40) || (n =? 41))%nat.

Definition escape_char (c : ascii) : string :=
  if unreserved c then String c ""
  else
    let n := nat_of_ascii c in
    String "%" (String (hex_digit_upper (n / 16))
                  (String (hex_digit_upper (n mod 16)) "")).

Fixpoint escape (s : string) : string :=
  match s with
  | EmptyString => ""
  | String c s' => escape_char c ++ escape s'
  end.

End qs.

(** ** [JSON.stringify] on strings

    Wraps the text in double quotes; the quote and the backslash are
    escaped with a backslash, the control characters below U+0020 with
    their short form or [\u00xx]; every other byte is kept. *)

Module JSON.

Definition quote_char (c : ascii) : string :=
  let n := nat_of_ascii c in
  if (n =? 34)%nat then String Str.backslash (String Str.dquote "")
  else if (n =? 92)%nat then "\\"
  else if (n =? 8)%nat then "\b"
  else if (n =? 12)%nat then "\f"
  else if (n =? 10)%nat then "\n"
  else if (n =? 13)%nat then "\r"
  else if (n =? 9)%nat then "\t"
  else if (n <? 32)%nat then
    "\u00" ++ String (hex_digit_lower (n / 16))
                (String (hex_digit_lower (n mod 16)) "")
  else String c "".

Fixpoint quote_body (s : string) : string :=
  match s with
  | EmptyString => ""
  | String c s' => quote_char c ++ quote_body s'
  end.

Definition stringify (s : string) : string :=
  String Str.dquote (quote_body s ++ String Str.dquote "").

End JSON.

(** ** Data model (the parts of [@vue/compiler-sfc]'s types the entry
    transform reads) *)

(** An attribute value is [string | true]. *)
Inductive AttrValue : Type :=
  | AttrTrue
  | AttrString (s : string).

(** [SFCBlock['attrs']]: a [Record<string, string | true>], listed in the
    order in which [for (const name in attrs)] enumerates it.  The keys of
    an object are pairwise distinct. *)
Definition Attrs : Type := list (string * AttrValue).

Module Attr.

(** Truthiness of [value]. *)
Definition truthy (v : AttrValue) : bool :=
  match v with
  | AttrTrue => true
  | AttrString s => Str.truthy s
  end.

(** [String(value)], which is also how a template literal renders it. *)
Definition to_string (v : AttrValue) : string :=
  match v with
  | AttrTrue => "true"
  | AttrString s => s
  end.

(** [attrs[name]] *)
Fixpoint get (name : string) (attrs : Attrs) : option AttrValue :=
  match attrs with
  | [] => None
  | (k, v) :: rest => if String.eqb k name then Some v else get name rest
  end.

(** [name in attrs] *)
Definition has (name : string) (attrs : Attrs) : bool :=
  match get name attrs with
  | Some _ => true
  | None => false
  end.

(** The keys, in enumeration order. *)
Definition keys (attrs : Attrs) : list string := map fst attrs.

End Attr.

(** [style.module] is [string | boolean] when present. *)
Inductive ModuleFlag : Type :=
  | ModuleBool (b : bool)
  | ModuleName (s : string).

(** One section of the document.  [scoped] and [module] are the extra
    fields of a style section ([SFCStyleBlock]). *)
Record SFCBlock : Type := mkBlock {
  type : string;
  content : string;
  attrs : Attrs;
  src : option string;
  scoped : option bool;
  module : option ModuleFlag
}.

Record SFCDescriptor : Type := mkDescriptor {
  template : option SFCBlock;
  script : option SFCBlock;
  scriptSetup : option SFCBlock;
  scriptCompiled : option SFCBlock;
  styles : list SFCBlock;
  customBlocks : list SFCBlock
}.

(** Truthiness of an optional string ([undefined] and the empty string
    are falsy) and its rendering in a template literal. *)
Definition opt_truthy (o : option string) : bool :=
  match o with
  | Some s => Str.truthy s
  | None => false
  end.

Definition opt_render (o : option string) : string :=
  match o with
  | Some s => s
  | None => "undefined"
  end.

(** [block.src || resourcePath] *)
Definition src_or (b : SFCBlock) (resourcePath : string) : string :=
  match src b with
  | Some s => if Str.truthy s then s else resourcePath
  | None => resourcePath
  end.

(** [block.src ? `&src` : ``] *)
Definition srcQuery (b : SFCBlock) : string :=
  if opt_truthy (src b) then "&src" else "".

(** Truthiness of [style.module] and of [style.scoped]. *)
Definition module_truthy (m : option ModuleFlag) : bool :=
  match m with
  | Some (ModuleBool b) => b
  | Some (ModuleName s) => Str.truthy s
  | None => false
  end.

Definition scoped_truthy (o : option bool) : bool :=
  match o with
  | Some b => b
  | None => false
  end.

(** ** The query encoder *)

(** these are built-in query parameters so should be ignored
    if the user happen to add them as attrs *)
Definition ignoreList : list string := ["id"; "index"; "src"; "type"; "lang"].

(** [ignoreList.includes(name)] *)
Definition ignored (name : string) : bool :=
  existsb (String.eqb name) ignoreList.

(** The text one attribute adds to the query in the loop body of
    [attrsToQuery]. *)
Definition attrQuery (name : string) (value : AttrValue) : string :=
  if negb (ignored name) then
    "&" ++ qs.escape name ++
    (if Attr.truthy value then "=" ++ qs.escape (Attr.to_string value) else "")
  else "".

(** The language suffix appended after the loop. *)
Definition langQuery (attrs : Attrs) (langFallback : option string)
    (forceLangFallback : bool) : string :=
  if opt_truthy langFallback ||
     match Attr.get "lang" attrs with Some v => Attr.truthy v | None => false end
  then
    match Attr.get "lang" attrs with
    | Some lang =>
        if forceLangFallback
        then "&lang." ++ opt_render langFallback
        else "&lang." ++ Attr.to_string lang
    | None => "&lang." ++ opt_render langFallback
    end
  else "".

Definition attrsToQuery (attrs : Attrs) (langFallback : option string)
    (forceLangFallback : bool) : string :=
  let query :=
    fold_left (fun query '(name, value) => query ++ attrQuery name value)
      attrs "" in
  query ++ langQuery attrs langFallback forceLangFallback.

(** ** The section router *)

(** [xs.forEach((x, i) => ...)] with the variables the callback assigns
    threaded as a state; [i] is the index of the first element. *)
Fixpoint forEach {A S : Type} (f : S -> A -> nat -> S) (xs : list A)
    (i : nat) (s : S) : S :=
  match xs with
  | [] => s
  | x :: rest => forEach f rest (Datatypes.S i) (f s x i)
  end.

(** [output.push(x)] *)
Definition push (output : list string) (x : string) : list string :=
  (output ++ [x])%list.

(** The address built for the template section. *)
Definition templateRequest (t : SFCBlock) (resourcePath id : string) : string :=
  let src := src_or t resourcePath in
  let idQuery := "&id=" ++ id in
  let attrsQuery := attrsToQuery (attrs t) (Some "js") true in
  let query := "?vue&type=template" ++ idQuery ++ srcQuery t ++ attrsQuery in
  src ++ query.

Definition genTemplateCode (descriptor : SFCDescriptor)
    (resourcePath id : string) (isServer : bool) : string :=
  let renderFnName := if isServer then "ssrRender" else "render" in
  let templateImport := "const " ++ renderFnName ++ " = () => {}" in
  match template descriptor with
  | Some t =>
      "import { " ++ renderFnName ++ " } from " ++
      JSON.stringify (templateRequest t resourcePath id)
  | None => templateImport
  end.

(** The address built for the script section. *)
Definition scriptRequest (script : SFCBlock) (resourcePath : string) : string :=
  let src := src_or script resourcePath in
  let attrsQuery := attrsToQuery (attrs script) (Some "js") false in
  let query := "?vue&type=script" ++ srcQuery script ++ attrsQuery in
  src ++ query.

(** What is left of [s] after its longest prefix without [&]. *)
Fixpoint skip_non_amp (s : string) : string :=
  match s with
  | EmptyString => ""
  | String c s' => if Ascii.eqb c "&" then s else skip_non_amp s'
  end.

(** [/&module(=true|=[^&]+)?/] tried at the start of [s]: what follows the
    match.  The alternatives are tried in order, [[^&]+] is greedy, and
    nothing follows the optional group, so the first alternative that
    matches is kept. *)
Definition match_module (s : string) : option string :=
  match Str.strip_prefix "&module" s with
  | Some rest =>
      match Str.strip_prefix "=true" rest with
      | Some r => Some r
      | None =>
          match rest with
          | String "=" (String c r) =>
              if Ascii.eqb c "&" then Some rest else Some (skip_non_amp r)
          | _ => Some rest
          end
      end
  | None => None
  end.

(** [s.replace(/&module(=true|=[^&]+)?/, '')]: the leftmost match is
    removed. *)
Fixpoint replace_module (s : string) : string :=
  match match_module s with
  | Some r => r
  | None =>
      match s with
      | EmptyString => ""
      | String c s' => String c (replace_module s')
      end
  end.

Definition genCSSModulesCode (id : string) (index : nat)
    (request requestWithoutModule : string) (moduleName : ModuleFlag) : string :=
  let styleVar := "style" ++ Str.of_nat index in
  let code :=
    (* first import the CSS for extraction *)
    Str.nl ++ "import " ++ JSON.stringify requestWithoutModule ++
    (* then import the json file to expose to component... *)
    Str.nl ++ "import " ++ styleVar ++ " from " ++
    JSON.stringify (request ++ ".js") in
  (* inject variable *)
  let name := match moduleName with ModuleName s => s | ModuleBool _ => "$style" end in
  code ++ Str.nl ++ "cssModules[" ++ String Str.dquote name ++
  String Str.dquote "] = " ++ styleVar.

(** The two addresses built for the style section at index [i]. *)
Definition styleQuery (style : SFCBlock) (i : nat) (id : string) : string :=
  let idQuery := "&id=" ++ id in
  "?vue&type=style&index=" ++ Str.of_nat i ++ srcQuery style ++ idQuery.

Definition styleRequest (style : SFCBlock) (i : nat)
    (resourcePath id : string) (preprocessStyles : bool) : string :=
  let attrsQuery := attrsToQuery (attrs style) (Some "css") preprocessStyles in
  src_or style resourcePath ++ styleQuery style i id ++ attrsQuery.

Definition styleRequestWithoutModule (style : SFCBlock) (i : nat)
    (resourcePath id : string) (preprocessStyles : bool) : string :=
  let attrsQuery := attrsToQuery (attrs style) (Some "css") preprocessStyles in
  let attrsQueryWithoutModule := replace_module attrsQuery in
  src_or style resourcePath ++ styleQuery style i id ++ attrsQueryWithoutModule.

(** The callback of [descriptor.styles.forEach] in [genStyleCode]; the
    state is [(stylesCode, hasCSSModules)]. *)
Definition styleStep (resourcePath id : string) (preprocessStyles : bool)
    (st : string * bool) (style : SFCBlock) (i : nat) : string * bool :=
  let '(stylesCode, hasCSSModules) := st in
  let request := styleRequest style i resourcePath id preprocessStyles in
  let requestWithoutModule :=
    styleRequestWithoutModule style i resourcePath id preprocessStyles in
  match module style with
  | Some m =>
      if module_truthy (Some m) then
        let stylesCode :=
          if negb hasCSSModules
          then stylesCode ++ Str.nl ++ "const cssModules = script.__cssModules = {}"
          else stylesCode in
        (stylesCode ++ genCSSModulesCode id i request requestWithoutModule m, true)
      else
        (stylesCode ++ Str.nl ++ "import " ++ JSON.stringify request, hasCSSModules)
  | None =>
      (stylesCode ++ Str.nl ++ "import " ++ JSON.stringify request, hasCSSModules)
  end.

(** [preprocessStyles?: boolean] reaches [attrsToQuery] as its third
    argument, whose default [false] replaces [undefined]. *)
Definition genStyleCode (descriptor : SFCDescriptor) (resourcePath id : string)
    (preprocessStyles : option bool) : string :=
  let force := match preprocessStyles with Some b => b | None => false end in
  if negb (Nat.eqb (length (styles descriptor)) 0) then
    fst (forEach (styleStep resourcePath id force) (styles descriptor) 0 ("", false))
  else "".

(** The address built for the custom block at [index]. *)
Definition customBlockRequest (block : SFCBlock) (index : nat)
    (resourcePath : string) : string :=
  let src := src_or block resourcePath in
  let attrsQuery := attrsToQuery (attrs block) (Some (type block)) false in
  let query := "?vue&type=" ++ type block ++ "&index=" ++ Str.of_nat index ++
               srcQuery block ++ attrsQuery in
  src ++ query.

(** The callback of [descriptor.customBlocks.forEach] in [getCustomBlock];
    the state is [code]. *)
Definition customBlockStep (resourcePath : string) (filter : string -> bool)
    (code : string) (block : SFCBlock) (index : nat) : string :=
  if filter (type block) then
    let request := JSON.stringify (customBlockRequest block index resourcePath) in
    let code := code ++ "import block" ++ Str.of_nat index ++ " from " ++
                request ++ Str.nl in
    code ++ "if (typeof block" ++ Str.of_nat index ++ " === 'function') block" ++
    Str.of_nat index ++ "(script)" ++ Str.nl
  else code.

Definition getCustomBlock (descriptor : SFCDescriptor) (resourcePath : string)
    (filter : string -> bool) : string :=
  forEach (customBlockStep resourcePath filter) (customBlocks descriptor) 0 "".

(** ** Scope identity *)

(** [.replace(/^(\.\.[\/\\])+/, '')]: every leading [../] or [..\] is
    dropped. *)
Fixpoint strip_parent_escapes (s : string) : string :=
  match s with
  | String "." (String "." (String c s')) =>
      if Ascii.eqb c "/" || Ascii.eqb c Str.backslash
      then strip_parent_escapes s'
      else s
  | _ => s
  end.

(** [.replace(/\\/g, '/')] *)
Fixpoint slashes (s : string) : string :=
  match s with
  | EmptyString => ""
  | String c s' =>
      String (if Ascii.eqb c Str.backslash then "/"%char else c) (slashes s')
  end.

(** ** Diagnostics, cache and results *)

(** A diagnostic of the external parser. *)
Record CompilerError : Type := mkCompilerError {
  message : string;
  position : option (nat * nat)
}.

(** What the host is handed: the resource identity and the diagnostic. *)
Record RollupError : Type := mkRollupError {
  id : string;
  parserError : CompilerError
}.

(** Modelled from the spec: [createRollupError] (utils/error) is not part
    of the sources; a reported diagnostic carries the resource identity
    and the parser's diagnostic with its position. *)
Definition createRollupError (resourcePath : string) (error : CompilerError)
    : RollupError :=
  mkRollupError resourcePath error.

(** Modelled from the spec: the descriptor cache (utils/descriptorCache)
    is not part of the sources; it maps a resource identity to the most
    recently stored document, and [setDescriptor] overwrites
    unconditionally. *)
Definition setDescriptor (resourcePath : string) (descriptor : SFCDescriptor)
    (cache : gmap string SFCDescriptor) : gmap string SFCDescriptor :=
  <[resourcePath := descriptor]> cache.

(** What a transform can change outside itself: the descriptor cache and
    the diagnostics handed to [pluginContext.error], oldest first. *)
Record World : Type := mkWorld {
  descriptorCache : gmap string SFCDescriptor;
  reported : list RollupError
}.

(** [TransformPluginContext], of which only [error] is used.  The host
    decides whether a call of [error] comes back to the transform or
    raises; [error_raises e] tells which. *)
Record TransformPluginContext : Type := mkContext {
  error_raises : RollupError -> bool
}.

(** How a call ends: with a value, or with an exception on its way to the
    caller. *)
Inductive Completion (A : Type) : Type :=
  | Return (a : A)
  | Throw (e : RollupError).
Arguments Return {A} a.
Arguments Throw {A} e.

(** [{ code, map: { mappings } }] *)
Record TransformResult : Type := mkResult {
  code : string;
  mappings : string
}.

(** The fields of the plugin options the transform reads itself. *)
Record Options : Type := mkOptions {
  preprocessStyles : option bool;
  exposeFilename : option bool
}.

(** [errors.forEach((error) => pluginContext.error(createRollupError(resourcePath, error)))] *)
Fixpoint reportErrors (pluginContext : TransformPluginContext)
    (resourcePath : string) (errors : list CompilerError) (w : World)
    : Completion unit * World :=
  match errors with
  | [] => (Return tt, w)
  | error :: rest =>
      let e := createRollupError resourcePath error in
      let w' := mkWorld (descriptorCache w) (reported w ++ [e]) in
      if error_raises pluginContext e then (Throw e, w')
      else reportErrors pluginContext resourcePath rest w'
  end.

(** ** The entry transform *)

Section Transform.

(** External collaborators: [hash-sum], Node's [path], the parser and the
    script compiler of [@vue/compiler-sfc], and [getTemplateCompilerOptions]
    of ./template. *)
Variable hash : string -> string.
Variable path_relative : string -> string -> string.
Variable path_basename : string -> string.
Variable parse : string -> string -> string -> SFCDescriptor * list CompilerError.
Variable TemplateOptions : Type.
Variable getTemplateCompilerOptions :
  Options -> SFCDescriptor -> string -> TemplateOptions.
Variable compileScript :
  option (SFCDescriptor -> string -> bool -> bool -> TemplateOptions -> SFCBlock).

(** [genScriptCode] assigns [descriptor.scriptCompiled]; the descriptor it
    leaves behind is returned with the text. *)
Definition genScriptCode (descriptor : SFCDescriptor) (resourcePath id : string)
    (isProd isServer : bool) (templateOptions : TemplateOptions)
    : string * SFCDescriptor :=
  let scriptImport := "const script = {}" in
  match script descriptor, scriptSetup descriptor with
  | None, None => (scriptImport, descriptor)
  | _, _ =>
      let descriptor :=
        match compileScript with
        | Some compile =>
            mkDescriptor (template descriptor) (script descriptor)
              (scriptSetup descriptor)
              (Some (compile descriptor id isProd (negb isServer) templateOptions))
              (styles descriptor) (customBlocks descriptor)
        | None => descriptor
        end in
      let script :=
        match scriptCompiled descriptor with
        | Some s => Some s
        | None => script descriptor
        end in
      match script with
      | Some script =>
          let scriptRequest := JSON.stringify (scriptRequest script resourcePath) in
          ("import script from " ++ scriptRequest ++ Str.nl ++
           "export * from " ++ scriptRequest (* support named exports *),
           descriptor)
      | None => (scriptImport, descriptor)
      end
  end.

Definition shortFilePath (sourceRoot resourcePath : string) : string :=
  slashes (strip_parent_escapes (path_relative sourceRoot resourcePath)).

(** The text that is hashed, and the scope token. *)
Definition scopeInput (code resourcePath sourceRoot : string)
    (isProduction : bool) : string :=
  let shortFilePath := shortFilePath sourceRoot resourcePath in
  if isProduction then shortFilePath ++ Str.nl ++ code else shortFilePath.

Definition scopeId (code resourcePath sourceRoot : string)
    (isProduction : bool) : string :=
  hash (scopeInput code resourcePath sourceRoot isProduction).

Definition hasTemplateImport (descriptor : SFCDescriptor) (isServer : bool) : bool :=
  match template descriptor with
  | Some _ =>
      (* script setup compiles template inline, do not import again *)
      isServer || negb (match scriptSetup descriptor with Some _ => true | None => false end)
  | None => false
  end.

Definition templateImport (descriptor : SFCDescriptor)
    (resourcePath scopeId : string) (isServer : bool) : string :=
  if hasTemplateImport descriptor isServer
  then genTemplateCode descriptor resourcePath scopeId isServer
  else "".

Definition renderReplace (descriptor : SFCDescriptor) (isServer : bool) : string :=
  if hasTemplateImport descriptor isServer
  then if isServer then "script.ssrRender = ssrRender"
       else "script.render = render"
  else "".

(** The lines of the module, before [output.join]. *)
Definition assemble (descriptor : SFCDescriptor) (resourcePath : string)
    (options : Options) (scopeId shortFilePath : string)
    (isProduction isServer : bool) (filterCustomBlock : string -> bool)
    : list string * SFCDescriptor :=
  (* feature information *)
  let hasScoped := existsb (fun s => scoped_truthy (scoped s)) (styles descriptor) in
  let templateImport := templateImport descriptor resourcePath scopeId isServer in
  let renderReplace := renderReplace descriptor isServer in
  let '(scriptImport, descriptor) :=
    genScriptCode descriptor resourcePath scopeId isProduction isServer
      (getTemplateCompilerOptions options descriptor scopeId) in
  let stylesCode :=
    genStyleCode descriptor resourcePath scopeId (preprocessStyles options) in
  let customBlocksCode := getCustomBlock descriptor resourcePath filterCustomBlock in
  let output :=
    [scriptImport; templateImport; stylesCode; customBlocksCode; renderReplace] in
  let output :=
    if hasScoped
    then push output ("script.__scopeId = " ++ JSON.stringify ("data-v-" ++ scopeId))
    else output in
  let output :=
    if negb isProduction
    then push output ("script.__file = " ++ JSON.stringify shortFilePath)
    else if match exposeFilename options with Some b => b | None => false end
    then push output ("script.__file = " ++
                      JSON.stringify (path_basename shortFilePath))
    else output in
  (push output "export default script", descriptor).

Definition transformSFCEntry (code resourcePath : string) (options : Options)
    (sourceRoot : string) (isProduction isServer : bool)
    (filterCustomBlock : string -> bool)
    (pluginContext : TransformPluginContext) (w : World)
    : Completion (option TransformResult) * World :=
  let '(descriptor, errors) := parse code resourcePath sourceRoot in
  let w := mkWorld (setDescriptor resourcePath descriptor (descriptorCache w))
             (reported w) in
  if negb (Nat.eqb (length errors) 0) then
    match reportErrors pluginContext resourcePath errors w with
    | (Return _, w) => (Return None, w)
    | (Throw e, w) => (Throw e, w)
    end
  else
    let scopeId := scopeId code resourcePath sourceRoot isProduction in
    let '(output, descriptor) :=
      assemble descriptor resourcePath options scopeId
        (shortFilePath sourceRoot resourcePath) isProduction isServer
        filterCustomBlock in
    (* the cache holds the very object whose [scriptCompiled] was assigned *)
    let w := mkWorld (setDescriptor resourcePath descriptor (descriptorCache w))
               (reported w) in
    (Return (Some (mkResult (Str.join Str.nl output) "")), w).

End Transform.

(** ** Reading a query back *)

(** Modelled from the spec: the reader of a virtual address (the query
    parser behind [parseVuePartRequest]) is not part of the sources.  By the
    address grammar of the spec a query is a sequence of [&]-separated
    [urlencoded key[=value]] entries: the text is cut at every [&], empty
    pieces are skipped, each piece is cut at its first [=], and both halves
    are percent-decoded; a bare key reads back with the empty value. *)
Module Query.

Definition hex_value (c : ascii) : option nat :=
  let n := nat_of_ascii c in
  if ((48 <=? n) && (n <=? 57))%nat then Some (n - 48)
  else if ((65 <=? n) && (n <=? 70))%nat then Some (n - 55)
  else if ((97 <=? n) && (n <=? 102))%nat then Some (n - 87)
  else None.

(** Percent-decoding; a [%] that is not followed by two hexadecimal digits
    is kept. *)
Fixpoint unescape (s : string) : string :=
  match s with
  | EmptyString => ""
  | String c t =>
      match t with
      | String a (String b s') =>
          if Ascii.eqb c "%" then
            match hex_value a, hex_value b with
            | Some x, Some y => String (ascii_of_nat (16 * x + y)) (unescape s')
            | _, _ => String c (unescape t)
            end
          else String c (unescape t)
      | _ => String c (unescape t)
      end
  end.

(** [s.split(sep)] for a one-character separator, as a first piece and
    the pieces after it. *)
Fixpoint split (sep : ascii) (s : string) : string * list string :=
  match s with
  | EmptyString => ("", [])
  | String c s' =>
      let '(first, pieces) := split sep s' in
      if Ascii.eqb c sep then ("", first :: pieces)
      else (String c first, pieces)
  end.

Definition pieces (sep : ascii) (s : string) : list string :=
  let '(first, rest) := split sep s in first :: rest.

(** One [key[=value]] entry. *)
Definition entry (piece : string) : string * string :=
  match split "=" piece with
  | (key, []) => (unescape key, "")
  | (key, v :: vs) => (unescape key, unescape (Str.join "=" (v :: vs)))
  end.

Definition parse (query : string) : list (string * string) :=
  map entry (List.filter (fun piece => Str.truthy piece) (pieces "&" query)).

End Query.

(** What an attribute map reads back as: every key that is not reserved,
    in order, with [String(value)] for a truthy value and the empty value
    otherwise. *)
Definition readable (attrs : Attrs) : list (string * string) :=
  map (fun '(name, value) =>
         (name, if Attr.truthy value then Attr.to_string value else ""))
      (List.filter (fun '(name, _) => negb (ignored name)) attrs).

(** ** Example documents and stand-ins for the external collaborators *)

Module Examples.

(** A checksum in place of [hash-sum]. *)
Fixpoint checksum (s : string) : nat :=
  match s with
  | EmptyString => 0
  | String c s' => nat_of_ascii c + checksum s'
  end.

Definition hash (s : string) : string := Str.of_nat (checksum s).

(** [path.relative] for a resource below the root, and [path.basename]. *)
Definition relative (sourceRoot resourcePath : string) : string :=
  match Str.strip_prefix (sourceRoot ++ "/") resourcePath with
  | Some r => r
  | None => resourcePath
  end.

Fixpoint basename (s : string) : string :=
  match s with
  | EmptyString => ""
  | String c s' =>
      if Str.includes "/" s' then basename s'
      else if Ascii.eqb c "/" then s' else s
  end.

(** A script compiler that hands back the script-setup section, or else
    the script section, unchanged. *)
Definition compile (d : SFCDescriptor) (id : string) (isProd inlineTemplate : bool)
    (templateOptions : unit) : SFCBlock :=
  match scriptSetup d, script d with
  | Some s, _ => s
  | None, Some s => s
  | None, None => mkBlock "script" "" [] None None None
  end.

Definition block (type : string) (attrs : Attrs) : SFCBlock :=
  mkBlock type "" attrs None None None.

Definition styleBlock (attrs : Attrs) (module : option ModuleFlag) : SFCBlock :=
  mkBlock "style" "" attrs None None module.

(** Two style sections, the second one a CSS module named [classes]. *)
Definition moduleStyle : SFCBlock :=
  styleBlock [("module", AttrString "classes")] (Some (ModuleName "classes")).

Definition twoStyles : SFCDescriptor :=
  mkDescriptor (Some (block "template" [])) (Some (block "script" [])) None None
    [styleBlock [] None; moduleStyle] [].

(** A template next to a script-setup section. *)
Definition withScriptSetup : SFCDescriptor :=
  mkDescriptor (Some (block "template" [])) None
    (Some (block "script" [("setup", AttrTrue)])) None [] [].

(** A script and two custom blocks. *)
Definition withCustomBlocks : SFCDescriptor :=
  mkDescriptor None (Some (block "script" [])) None None []
    [block "i18n" [("locale", AttrString "en")]; block "docs" []].

(** A parser that knows one document, and the diagnostics it reports. *)
Definition parser (d : SFCDescriptor) (errors : list CompilerError)
    (code filename sourceRoot : string) : SFCDescriptor * list CompilerError :=
  (d, errors).

Definition unexpectedEnd : CompilerError :=
  mkCompilerError "Element is missing end tag." (Some (1, 1)).

Definition duplicateTemplate : CompilerError :=
  mkCompilerError "Single file component can contain only one <template> element"
    (Some (5, 1)).

Definition emptyWorld : World := mkWorld ∅ [].

(** A host whose [error] comes back, and one whose [error] raises. *)
Definition recordingContext : TransformPluginContext := mkContext (fun _ => false).
Definition raisingContext : TransformPluginContext := mkContext (fun _ => true).

Definition noOptions : Options := mkOptions None None.

(** A host whose [error] raises on the diagnostics with a given message. *)
Definition raisingOn (text : string) : TransformPluginContext :=
  mkContext (fun e => String.eqb (message (parserError e)) text).

Definition transform (d : SFCDescriptor) (errors : list CompilerError)
    (isProduction isServer : bool) (pluginContext : TransformPluginContext)
    : Completion (option TransformResult) * World :=
  transformSFCEntry hash relative basename (parser d errors) unit
    (fun _ _ _ => tt) (Some compile) "<source>" "/app/src/App.vue" noOptions
    "/app" isProduction isServer (fun type => String.eqb type "docs")
    pluginContext emptyWorld.

(** The module text of a transform that returned one. *)
Definition moduleText (r : Completion (option TransformResult) * World) : string :=
  match fst r with
  | Return (Some result) => code result
  | _ => ""
  end.

End Examples.

(** ** Vocabulary of the statements *)

(** Every character of [s] satisfies [p]. *)
Fixpoint all_chars (p : ascii -> bool) (s : string) : bool :=
  match s with
  | EmptyString => true
  | String c s' => p c && all_chars p s'
  end.

(** No [&] in the text; no [&] and no [=]; none of [&], [=], [%]. *)
Definition amp_free (s : string) : bool :=
  all_chars (fun c => negb (Ascii.eqb c "&")) s.

Definition separator_free (s : string) : bool :=
  all_chars (fun c => negb (Ascii.eqb c "&") && negb (Ascii.eqb c "=")) s.

Definition plain (s : string) : bool :=
  all_chars (fun c => negb (Ascii.eqb c "&") && negb (Ascii.eqb c "=") &&
                      negb (Ascii.eqb c "%")) s.

(** A text that is empty or begins with [&]. *)
Definition amp_led (s : string) : bool :=
  match s with
  | EmptyString => true
  | String c _ => Ascii.eqb c "&"
  end.

(** A value of the [module] attribute on which the pattern
    [(=true|=[^&]+)] takes the whole value: [true], or a name whose encoding
    does not begin with the letters of [true] unless it is that word. *)
Definition whole_module_value (value : AttrValue) : bool :=
  match value with
  | AttrTrue => true
  | AttrString s =>
      String.eqb s "true" || negb (Str.starts_with "true" (qs.escape s))
  end.

(** What [qs.escape] writes for [c] decodes to [c]: the character itself,
    which is not [%], or [%] and the two hexadecimal digits of its code. *)
Definition decodable (c : ascii) : bool :=
  if qs.unreserved c then negb (Ascii.eqb c "%")
  else
    let n := nat_of_ascii c in
    match Query.hex_value (hex_digit_upper (n / 16)),
          Query.hex_value (hex_digit_upper (n mod 16)) with
    | Some x, Some y => Ascii.eqb (ascii_of_nat (16 * x + y)) c
    | _, _ => false
    end.

(** The line of the style text that creates the CSS-modules map on the
    script object, and a style text that holds it. *)
Definition declaration : string :=
  Str.nl ++ "const cssModules = script.__cssModules = {}".

Definition declared (stylesCode : string) : Prop :=
  exists before after, stylesCode = before ++ declaration ++ after.


(** A path that begins with [../] or [..\]. *)
Definition parent_escape (s : string) : bool :=
  match s with
  | String a (String b (String c _)) =>
      Ascii.eqb a "." && Ascii.eqb b "." &&
      (Ascii.eqb c "/" || Ascii.eqb c Str.backslash)
  | _ => false
  end.

(** The reserved keys other than [lang]. *)
Definition routing_key (name : string) : bool :=
  existsb (String.eqb name) ["id"; "index"; "src"; "type"].

(** Some style section of the list is a CSS module. *)
Definition has_module (styles : list SFCBlock) : bool :=
  existsb (fun style => module_truthy (module style)) styles.

(** What the loop of [genStyleCode] appends for the style section at
    index [i], given whether an earlier section was a CSS module. *)
Definition styleText (resourcePath id : string) (force declaredBefore : bool)
    (i : nat) (style : SFCBlock) : string :=
  match module style with
  | Some m =>
      if module_truthy (Some m) then
        (if declaredBefore then "" else declaration) ++
        genCSSModulesCode id i (styleRequest style i resourcePath id force)
          (styleRequestWithoutModule style i resourcePath id force) m
      else
        Str.nl ++ "import " ++
        JSON.stringify (styleRequest style i resourcePath id force)
  | None =>
      Str.nl ++ "import " ++
      JSON.stringify (styleRequest style i resourcePath id force)
  end.

(** * Properties *)

#[local] Arguments String.append !s1 s2 : simpl nomatch.

(** ** Strings *)

Module StrFacts.

Lemma app_nil_r (s : string) : s ++ "" = s.
Proof. induction s as [|c s IH]; cbn; [reflexivity | now f_equal]. Qed.

Lemma app_assoc (a b c : string) : (a ++ b) ++ c = a ++ b ++ c.
Proof. induction a as [|x a IH]; cbn; [reflexivity | now f_equal]. Qed.

Lemma app_inv_head (a b c : string) : a ++ b = a ++ c -> b = c.
Proof.
  induction a as [|x a IH]; cbn; intros H; [exact H|].
  injection H as H. now apply IH.
Qed.

End StrFacts.

(** ** Iteration *)

Lemma forEach_app {A St : Type} (f : St -> A -> nat -> St) (xs ys : list A)
    (i : nat) (s : St) :
  forEach f (xs ++ ys) i s = forEach f ys (i + length xs) (forEach f xs i s).
Proof.
  revert i s. induction xs as [|x xs IH]; intros i s; simpl.
  - now rewrite Nat.add_0_r.
  - rewrite IH. now replace (S i + length xs) with (i + S (length xs)) by lia.
Qed.

(** ** The template section *)

Section TemplateFacts.

Variable path_basename : string -> string.
Variable TemplateOptions : Type.
Variable getTemplateCompilerOptions :
  Options -> SFCDescriptor -> string -> TemplateOptions.
Variable compileScript :
  option (SFCDescriptor -> string -> bool -> bool -> TemplateOptions -> SFCBlock).

(** The first five lines of the module are, in this order, the script
    import, the template import, the style imports, the custom-block
    imports and the render re-binding. *)
Lemma assemble_lines (d : SFCDescriptor) (resourcePath : string) (options : Options)
    (scopeId shortFilePath : string) (isProduction isServer : bool)
    (filterCustomBlock : string -> bool) :
  exists scriptImport d' rest,
    genScriptCode TemplateOptions compileScript d resourcePath scopeId
      isProduction isServer (getTemplateCompilerOptions options d scopeId)
      = (scriptImport, d') /\
    assemble path_basename TemplateOptions getTemplateCompilerOptions
      compileScript d resourcePath options scopeId shortFilePath isProduction
      isServer filterCustomBlock
    = (([scriptImport;
         templateImport d resourcePath scopeId isServer;
         genStyleCode d' resourcePath scopeId (preprocessStyles options);
         getCustomBlock d' resourcePath filterCustomBlock;
         renderReplace d isServer] ++ rest)%list, d').
Proof.
  unfold assemble.
  destruct (genScriptCode _ _ _ _ _ _ _ _) as [scriptImport d'].
  exists scriptImport, d'.
  destruct (existsb _ _), isProduction, (exposeFilename options) as [[|]|];
    simpl; eexists; (split; [reflexivity|]); unfold push; simpl; reflexivity.
Qed.

(** C1. A template address is generated exactly when the document has a
    template section and server rendering is on or there is no script-setup
    section: the second line of the module is then the import of that one
    address under the render-function name of the mode, and it is empty
    otherwise.  In particular a document with a template and a script-setup
    section has no template import with server rendering off, and the
    import of exactly one address with server rendering on. *)
Theorem template_address_iff (d : SFCDescriptor) (resourcePath : string)
    (options : Options) (scopeId shortFilePath : string) (isProduction isServer : bool)
    (filterCustomBlock : string -> bool) :
  nth_error
    (fst (assemble path_basename TemplateOptions getTemplateCompilerOptions
            compileScript d resourcePath options scopeId shortFilePath
            isProduction isServer filterCustomBlock)) 1
  = Some (templateImport d resourcePath scopeId isServer)
  /\ templateImport d resourcePath scopeId isServer
     = match template d, scriptSetup d, isServer with
       | Some t, _, true =>
           "import { ssrRender } from " ++
           JSON.stringify (templateRequest t resourcePath scopeId)
       | Some t, None, false =>
           "import { render } from " ++
           JSON.stringify (templateRequest t resourcePath scopeId)
       | Some t, Some _, false => ""
       | None, _, _ => ""
       end
  /\ (hasTemplateImport d isServer = true <->
      (exists t, template d = Some t) /\ (isServer = true \/ scriptSetup d = None)).
Proof.
  split; [|split].
  - destruct (assemble_lines d resourcePath options scopeId shortFilePath
                isProduction isServer filterCustomBlock)
      as (scriptImport & d' & rest & _ & ->).
    reflexivity.
  - unfold templateImport, hasTemplateImport, genTemplateCode.
    destruct (template d) as [t|], (scriptSetup d) as [s|], isServer; reflexivity.
  - unfold hasTemplateImport.
    destruct (template d) as [t|], (scriptSetup d) as [s|], isServer; simpl;
      split; intros H; try discriminate; try reflexivity.
    all: try (split; [now eexists | now (left + right)]).
    all: destruct H as [[t' Ht] [H|H]]; discriminate.
Qed.

(** C7, as the code has it.  When no template address is generated, the
    template import and the render re-binding are both the empty line: the
    module then names no render function, and no placeholder is bound.
    [genTemplateCode] does hold a no-op placeholder, for a descriptor
    without a template, but the transform calls it only for a descriptor
    that has one. *)
Theorem no_template_import_leaves_render_unbound (d : SFCDescriptor)
    (resourcePath : string) (options : Options) (scopeId shortFilePath : string)
    (isProduction isServer : bool) (filterCustomBlock : string -> bool) :
  hasTemplateImport d isServer = false ->
  let output :=
    fst (assemble path_basename TemplateOptions getTemplateCompilerOptions
           compileScript d resourcePath options scopeId shortFilePath
           isProduction isServer filterCustomBlock) in
  nth_error output 1 = Some "" /\ nth_error output 4 = Some "" /\
  templateImport d resourcePath scopeId isServer = "" /\
  renderReplace d isServer = "" /\
  (template d = None ->
   genTemplateCode d resourcePath scopeId isServer
   = "const " ++ (if isServer then "ssrRender" else "render") ++ " = () => {}").
Proof.
  intros H output. subst output.
  destruct (assemble_lines d resourcePath options scopeId shortFilePath
              isProduction isServer filterCustomBlock)
    as (scriptImport & d' & rest & _ & ->).
  unfold templateImport, renderReplace. rewrite H. simpl.
  repeat split. intros Ht. unfold genTemplateCode. now rewrite Ht.
Qed.

End TemplateFacts.

(** The placeholder of [genTemplateCode] is out of the transform's reach:
    where the template import is asked for, the descriptor has a template. *)
Lemma hasTemplateImport_template (d : SFCDescriptor) (isServer : bool) :
  hasTemplateImport d isServer = true -> exists t, template d = Some t.
Proof.
  unfold hasTemplateImport. destruct (template d) as [t|]; [now eexists | discriminate].
Qed.

(** C7, a document on which the claim fails: with a template and a
    script-setup section and server rendering off, no template address is
    generated, and the module binds no placeholder (nor anything else) to
    [render]. *)
Lemma no_placeholder_without_template_import :
  hasTemplateImport Examples.withScriptSetup false = false /\
  Str.includes "() => {}"
    (Examples.moduleText
       (Examples.transform Examples.withScriptSetup [] false false
          Examples.recordingContext)) = false /\
  Str.includes "render"
    (Examples.moduleText
       (Examples.transform Examples.withScriptSetup [] false false
          Examples.recordingContext)) = false.
Proof. vm_compute. repeat split. Qed.

(** The amended C7 on that document. *)
Lemma no_template_import_witness :
  hasTemplateImport Examples.withScriptSetup false = false /\
  templateImport Examples.withScriptSetup "/app/src/App.vue" "1046" false = "" /\
  renderReplace Examples.withScriptSetup false = "".
Proof.
  split; [reflexivity|].
  pose proof (no_template_import_leaves_render_unbound Examples.basename unit
                (fun _ _ _ => tt) (Some Examples.compile) Examples.withScriptSetup
                "/app/src/App.vue" Examples.noOptions "1046" "src/App.vue" false
                false (fun _ => true) eq_refl) as H.
  split; [exact (proj1 (proj2 (proj2 H))) | exact (proj1 (proj2 (proj2 (proj2 H))))].
Defined.

(** ** Scope identity *)

(** C5. The scope token is the hash of the normalized relative path, a line
    feed and the document text in production (content-sensitive) mode, and
    the hash of the normalized relative path alone otherwise.  Being a
    function of the path, the mode and the text, it is the same on every
    call with the same arguments; a different text gives a different hash
    input in production mode, and the same hash input, hence the same
    token, otherwise. *)
Theorem scope_token_policy (hash : string -> string)
    (path_relative : string -> string -> string)
    (code code' resourcePath sourceRoot : string) :
  scopeId hash path_relative code resourcePath sourceRoot true
  = hash (shortFilePath path_relative sourceRoot resourcePath ++ Str.nl ++ code)
  /\ scopeId hash path_relative code resourcePath sourceRoot false
     = hash (shortFilePath path_relative sourceRoot resourcePath)
  /\ shortFilePath path_relative sourceRoot resourcePath
     = slashes (strip_parent_escapes (path_relative sourceRoot resourcePath))
  /\ (code <> code' ->
      scopeInput path_relative code resourcePath sourceRoot true
      <> scopeInput path_relative code' resourcePath sourceRoot true)
  /\ scopeInput path_relative code resourcePath sourceRoot false
     = scopeInput path_relative code' resourcePath sourceRoot false
  /\ scopeId hash path_relative code resourcePath sourceRoot false
     = scopeId hash path_relative code' resourcePath sourceRoot false.
Proof.
  unfold scopeId, scopeInput. repeat split.
  intros Hne Heq. apply Hne.
  apply StrFacts.app_inv_head in Heq.
  now apply StrFacts.app_inv_head in Heq.
Qed.

(** ** Which addresses carry the scope token *)



(** ** Custom blocks *)

Lemma customBlockStep_app (resourcePath : string) (filter : string -> bool)
    (code : string) (block : SFCBlock) (index : nat) :
  customBlockStep resourcePath filter code block index
  = code ++ customBlockStep resourcePath filter "" block index.
Proof.
  unfold customBlockStep. destruct (filter (type block)).
  - cbv zeta. rewrite !StrFacts.app_assoc. reflexivity.
  - now rewrite StrFacts.app_nil_r.
Qed.

Lemma forEach_customBlockStep (resourcePath : string) (filter : string -> bool)
    (blocks : list SFCBlock) (i : nat) (code : string) :
  forEach (customBlockStep resourcePath filter) blocks i code
  = code ++ Str.concat
      (imap (fun k block => customBlockStep resourcePath filter "" block (i + k))
         blocks).
Proof.
  revert i code. induction blocks as [|b blocks IH]; intros i code;
    cbn [forEach imap].
  - now rewrite StrFacts.app_nil_r.
  - rewrite IH, customBlockStep_app, Nat.add_0_r.
    unfold Str.concat. cbn [fold_right]. rewrite StrFacts.app_assoc.
    do 3 f_equal. apply imap_ext. intros k x _. cbn. f_equal. lia.
Qed.

(** C8. The text for the custom blocks is the concatenation, in parse
    order, of one piece per block: for a block whose type passes the filter,
    the import of its address, of the form [type=<blockType>&index=<n>]
    with [n] the position of the block among all custom blocks, and the
    line that invokes it; for a block whose type the filter rejects, nothing
    at all. *)
Theorem custom_blocks_follow_filter (d : SFCDescriptor) (resourcePath : string)
    (filter : string -> bool) :
  getCustomBlock d resourcePath filter
  = Str.concat
      (imap
         (fun index block =>
            if filter (type block) then
              "import block" ++ Str.of_nat index ++ " from " ++
              JSON.stringify
                (src_or block resourcePath ++ "?vue&type=" ++ type block ++
                 "&index=" ++ Str.of_nat index ++ srcQuery block ++
                 attrsToQuery (attrs block) (Some (type block)) false) ++
              Str.nl ++
              "if (typeof block" ++ Str.of_nat index ++ " === 'function') block" ++
              Str.of_nat index ++ "(script)" ++ Str.nl
            else "")
         (customBlocks d)).
Proof.
  unfold getCustomBlock. rewrite forEach_customBlockStep.
  change (String.append "") with (fun s : string => s). cbv beta.
  f_equal. apply imap_ext. intros index block _. cbn [Nat.add].
  unfold customBlockStep, customBlockRequest.
  destruct (filter (type block)); [|reflexivity].
  cbv zeta. rewrite !StrFacts.app_assoc. reflexivity.
Qed.

(** ** Diagnostics and the descriptor cache *)

Lemma reportErrors_cache (pluginContext : TransformPluginContext)
    (resourcePath : string) (errors : list CompilerError) (w : World) :
  descriptorCache (snd (reportErrors pluginContext resourcePath errors w))
  = descriptorCache w.
Proof.
  revert w. induction errors as [|error errors IH]; intros w; simpl; [reflexivity|].
  destruct (error_raises _ _); [reflexivity|]. now rewrite IH.
Qed.


(** [genScriptCode] assigns [scriptCompiled] and nothing else. *)
Lemma genScriptCode_fields (TemplateOptions : Type)
    (compileScript :
       option (SFCDescriptor -> string -> bool -> bool -> TemplateOptions -> SFCBlock))
    (d : SFCDescriptor) (resourcePath id : string) (isProd isServer : bool)
    (templateOptions : TemplateOptions) :
  let d' := snd (genScriptCode TemplateOptions compileScript d resourcePath id
                   isProd isServer templateOptions) in
  template d' = template d /\ script d' = script d /\
  scriptSetup d' = scriptSetup d /\ styles d' = styles d /\
  customBlocks d' = customBlocks d.
Proof.
  unfold genScriptCode.
  destruct (script d) eqn:Hs, (scriptSetup d) eqn:Hss, compileScript; cbn;
    rewrite ?Hs; cbn;
    repeat match goal with
           | |- context [match ?x with _ => _ end] => destruct x; cbn
           end;
    rewrite ?Hs, ?Hss; repeat split; reflexivity.
Qed.

Section EntryFacts.

Variable hash : string -> string.
Variable path_relative : string -> string -> string.
Variable path_basename : string -> string.
Variable parse : string -> string -> string -> SFCDescriptor * list CompilerError.
Variable TemplateOptions : Type.
Variable getTemplateCompilerOptions :
  Options -> SFCDescriptor -> string -> TemplateOptions.
Variable compileScript :
  option (SFCDescriptor -> string -> bool -> bool -> TemplateOptions -> SFCBlock).

Abbreviation transform :=
  (transformSFCEntry hash path_relative path_basename parse TemplateOptions
     getTemplateCompilerOptions compileScript).

(** A document without diagnostics: the module is the lines of the
    assembler, for the scope token of the document, joined by line feeds,
    with an empty source map. *)
Lemma transform_without_diagnostics (code resourcePath : string) (options : Options)
    (sourceRoot : string) (isProduction isServer : bool)
    (filterCustomBlock : string -> bool) (pluginContext : TransformPluginContext)
    (w : World) (d : SFCDescriptor) :
  parse code resourcePath sourceRoot = (d, []) ->
  let assembled :=
    assemble path_basename TemplateOptions getTemplateCompilerOptions
      compileScript d resourcePath options
      (scopeId hash path_relative code resourcePath sourceRoot isProduction)
      (shortFilePath path_relative sourceRoot resourcePath)
      isProduction isServer filterCustomBlock in
  transform code resourcePath options sourceRoot isProduction isServer
    filterCustomBlock pluginContext w
  = (Return (Some (mkResult (Str.join Str.nl (fst assembled)) "")),
     mkWorld (<[resourcePath := snd assembled]> (<[resourcePath := d]> (descriptorCache w)))
       (reported w)).
Proof.
  intros Hparse assembled. subst assembled.
  unfold transformSFCEntry. rewrite Hparse. simpl.
  destruct (assemble _ _ _ _ _ _ _ _ _ _ _ _) as [output d']. reflexivity.
Qed.

(** A host whose [error] raises (as Rollup's does): the transform ends with
    the first diagnostic, reported alone, and returns nothing. *)
Lemma transform_raises_on_first_diagnostic (code resourcePath : string)
    (options : Options) (sourceRoot : string) (isProduction isServer : bool)
    (filterCustomBlock : string -> bool) (pluginContext : TransformPluginContext)
    (w : World) (d : SFCDescriptor) (error : CompilerError)
    (errors : list CompilerError) :
  parse code resourcePath sourceRoot = (d, error :: errors) ->
  error_raises pluginContext (createRollupError resourcePath error) = true ->
  transform code resourcePath options sourceRoot isProduction isServer
    filterCustomBlock pluginContext w
  = (Throw (createRollupError resourcePath error),
     mkWorld (<[resourcePath := d]> (descriptorCache w))
       (reported w ++ [createRollupError resourcePath error])).
Proof.
  intros Hparse Hraise. unfold transformSFCEntry. rewrite Hparse. simpl.
  now rewrite Hraise.
Qed.


(** C10. Whatever the parser reports, the transform leaves the cache with
    the entry of the resource replaced and every other entry as it was.
    With diagnostics the new entry is the document just parsed, also when
    the transform returns null or ends in the host's exception: the write
    comes before the check.  Without diagnostics it is that same document
    after the script compiler's result was assigned to it. *)
Theorem cache_overwritten_before_error_check (code resourcePath : string)
    (options : Options) (sourceRoot : string) (isProduction isServer : bool)
    (filterCustomBlock : string -> bool) (pluginContext : TransformPluginContext)
    (w : World) :
  let d := fst (parse code resourcePath sourceRoot) in
  let errors := snd (parse code resourcePath sourceRoot) in
  let after :=
    descriptorCache
      (snd (transform code resourcePath options sourceRoot isProduction isServer
              filterCustomBlock pluginContext w)) in
  (errors <> [] ->
   after = setDescriptor resourcePath d (descriptorCache w) /\
   after !! resourcePath = Some d)
  /\ (exists d', after !! resourcePath = Some d' /\
        template d' = template d /\ script d' = script d /\
        scriptSetup d' = scriptSetup d /\ styles d' = styles d /\
        customBlocks d' = customBlocks d)
  /\ (forall other, other <> resourcePath ->
        after !! other = descriptorCache w !! other).
Proof.
  intros d errors after. subst d errors after.
  unfold transformSFCEntry.
  destruct (parse code resourcePath sourceRoot) as [d errors]. cbn [fst snd].
  destruct errors as [|error errors].
  - cbn [length Nat.eqb negb].
    destruct (assemble _ _ _ _ _ _ _ _ _ _ _ _) as [output d'] eqn:Hassemble.
    cbn [snd descriptorCache]. unfold setDescriptor.
    split; [intros H; contradiction|]. split.
    + exists d'. rewrite lookup_insert_eq. split; [reflexivity|].
      destruct (assemble_lines path_basename TemplateOptions
                  getTemplateCompilerOptions compileScript d resourcePath options
                  (scopeId hash path_relative code resourcePath sourceRoot isProduction)
                  (shortFilePath path_relative sourceRoot resourcePath)
                  isProduction isServer filterCustomBlock)
        as (scriptImport & d'' & rest & Hscript & Hlines).
      rewrite Hlines in Hassemble. injection Hassemble as _ <-.
      pose proof (genScriptCode_fields TemplateOptions compileScript d resourcePath
                    (scopeId hash path_relative code resourcePath sourceRoot isProduction)
                    isProduction isServer
                    (getTemplateCompilerOptions options d
                       (scopeId hash path_relative code resourcePath sourceRoot
                          isProduction))) as Hfields.
      rewrite Hscript in Hfields. exact Hfields.
    + intros other Hother. now rewrite !lookup_insert_ne.
  - cbn [length Nat.eqb negb].
    pose proof (reportErrors_cache pluginContext resourcePath (error :: errors)
                  (mkWorld (setDescriptor resourcePath d (descriptorCache w))
                     (reported w))) as Hcache.
    destruct (reportErrors _ _ _ _) as [[u|e] w'];
      cbn [snd descriptorCache] in *; rewrite Hcache; unfold setDescriptor.
    all: split; [intros _; split; [reflexivity | apply lookup_insert_eq]|].
    all: split; [exists d; rewrite lookup_insert_eq; repeat split; reflexivity|].
    all: intros other Hother; now rewrite lookup_insert_ne.
Qed.

End EntryFacts.


(** ** The query encoder *)

(** The loop of [attrsToQuery] appends one piece of text per attribute. *)
Lemma attrs_loop (attrs : Attrs) (query : string) :
  fold_left (fun query '(name, value) => query ++ attrQuery name value) attrs query
  = query ++ Str.concat (map (fun '(name, value) => attrQuery name value) attrs).
Proof.
  revert query. induction attrs as [|[name value] attrs IH]; intros query;
    cbn [fold_left map].
  - now rewrite StrFacts.app_nil_r.
  - rewrite IH, StrFacts.app_assoc. reflexivity.
Qed.

Lemma attrsToQuery_parts (attrs : Attrs) (langFallback : option string)
    (forceLangFallback : bool) :
  attrsToQuery attrs langFallback forceLangFallback
  = Str.concat (map (fun '(name, value) => attrQuery name value) attrs) ++
    langQuery attrs langFallback forceLangFallback.
Proof. unfold attrsToQuery. now rewrite attrs_loop. Qed.

(** C4. For a fallback language that is not the empty text and a [lang]
    attribute whose value is not the empty text (the parser turns an empty
    attribute value into [true]), the encoder appends [&lang.<X>] to the
    encoded attributes exactly when a fallback was supplied or the map
    declares [lang]; [X] is the fallback when the force flag is set,
    otherwise the map's own [lang] value when it has one, otherwise the
    fallback. *)
Theorem lang_suffix_rule (attrs : Attrs) (langFallback : option string)
    (forceLangFallback : bool) :
  langFallback <> Some "" ->
  (forall value, Attr.get "lang" attrs = Some value -> Attr.truthy value = true) ->
  attrsToQuery attrs langFallback forceLangFallback
  = Str.concat (map (fun '(name, value) => attrQuery name value) attrs) ++
    (if match langFallback with Some _ => true | None => false end
        || Attr.has "lang" attrs
     then
       "&lang." ++
       (if forceLangFallback then opt_render langFallback
        else match Attr.get "lang" attrs with
             | Some value => Attr.to_string value
             | None => opt_render langFallback
             end)
     else "").
Proof.
  intros Hfallback Hlang. rewrite attrsToQuery_parts. f_equal.
  unfold langQuery, Attr.has.
  destruct (Attr.get "lang" attrs) as [value|] eqn:Hget.
  - rewrite (Hlang value eq_refl), orb_true_r.
    destruct langFallback, forceLangFallback; reflexivity.
  - rewrite !orb_false_r.
    destruct langFallback as [[|c s]|]; [contradiction | |];
      destruct forceLangFallback; reflexivity.
Qed.

(** C4 on a style section written in SCSS, and on a template under the
    forced fallback. *)
Lemma lang_suffix_witness :
  attrsToQuery [("lang", AttrString "scss"); ("scoped", AttrTrue)] (Some "css") false
  = "&scoped=true" ++ "&lang." ++ "scss".
Proof.
  exact (lang_suffix_rule [("lang", AttrString "scss"); ("scoped", AttrTrue)]
           (Some "css") false ltac:(discriminate)
           (fun value H =>
              match H in _ = o
                    return match o with
                           | Some v => Attr.truthy v = true
                           | None => True
                           end
              with eq_refl => eq_refl end)).
Defined.

(** ** Percent-encoding *)

(** A property of characters that holds of each of the 256 holds of all. *)
Lemma ascii_all (P : ascii -> bool) :
  forallb P (map ascii_of_nat (seq 0 256)) = true -> forall c, P c = true.
Proof.
  intros H c. rewrite forallb_forall in H. apply H.
  rewrite <- (ascii_nat_embedding c). apply in_map. apply in_seq.
  pose proof (nat_ascii_bounded c). lia.
Qed.

Module EscapeFacts.

Lemma decodable_all (c : ascii) : decodable c = true.
Proof. revert c. apply ascii_all. vm_compute. reflexivity. Qed.

Lemma escape_char_separator_free (c : ascii) :
  separator_free (qs.escape_char c) = true.
Proof.
  revert c. apply (ascii_all (fun c => separator_free (qs.escape_char c))).
  vm_compute. reflexivity.
Qed.

Lemma escape_char_truthy (c : ascii) : Str.truthy (qs.escape_char c) = true.
Proof. unfold qs.escape_char. now destruct (qs.unreserved c). Qed.

Lemma all_chars_app (p : ascii -> bool) (a b : string) :
  all_chars p (a ++ b) = all_chars p a && all_chars p b.
Proof.
  induction a as [|c a IH]; cbn; [reflexivity|].
  now rewrite IH, andb_assoc.
Qed.

Lemma all_chars_weaken (p q : ascii -> bool) (s : string) :
  (forall c, p c = true -> q c = true) ->
  all_chars p s = true -> all_chars q s = true.
Proof.
  intros Hpq. induction s as [|c s IH]; cbn; [reflexivity|].
  intros H. apply andb_prop in H as [Hc Hs]. now rewrite (Hpq c Hc), IH.
Qed.

Lemma escape_separator_free (s : string) : separator_free (qs.escape s) = true.
Proof.
  induction s as [|c s IH]; cbn; [reflexivity|].
  unfold separator_free in *. rewrite all_chars_app, IH, andb_true_r.
  apply escape_char_separator_free.
Qed.

Lemma separator_free_amp_free (s : string) :
  separator_free s = true -> amp_free s = true.
Proof.
  apply all_chars_weaken. intros c H. now apply andb_prop in H as [H _].
Qed.

Lemma escape_amp_free (s : string) : amp_free (qs.escape s) = true.
Proof. apply separator_free_amp_free, escape_separator_free. Qed.

Lemma escape_truthy (s : string) :
  Str.truthy (qs.escape s) = Str.truthy s.
Proof.
  destruct s as [|c s]; cbn; [reflexivity|].
  pose proof (escape_char_truthy c) as H.
  destruct (qs.escape_char c); [discriminate | reflexivity].
Qed.

(** Decoding undoes encoding, one character at a time. *)
Lemma unescape_escape_char (c : ascii) (rest : string) :
  Query.unescape (qs.escape_char c ++ rest) = String c (Query.unescape rest).
Proof.
  pose proof (decodable_all c) as H. unfold decodable in H.
  unfold qs.escape_char. destruct (qs.unreserved c).
  - cbn [String.append]. cbn [Query.unescape].
    apply negb_true_iff in H. rewrite H.
    destruct rest as [|a [|b rest]]; reflexivity.
  - cbn [String.append]. cbn [Query.unescape]. rewrite Ascii.eqb_refl.
    destruct (Query.hex_value _), (Query.hex_value _); try discriminate.
    apply Ascii.eqb_eq in H. now rewrite H.
Qed.

Lemma unescape_escape_app (s rest : string) :
  Query.unescape (qs.escape s ++ rest) = s ++ Query.unescape rest.
Proof.
  induction s as [|c s IH]; cbn [qs.escape String.append]; [reflexivity|].
  now rewrite StrFacts.app_assoc, unescape_escape_char, IH.
Qed.

Lemma unescape_escape (s : string) : Query.unescape (qs.escape s) = s.
Proof.
  rewrite <- (StrFacts.app_nil_r (qs.escape s)), unescape_escape_app.
  cbn. apply StrFacts.app_nil_r.
Qed.

End EscapeFacts.

(** ** Reading an encoded attribute map back *)

Module QueryFacts.

Import EscapeFacts.

Lemma split_whole (sep : ascii) (a : string) :
  all_chars (fun c => negb (Ascii.eqb c sep)) a = true ->
  Query.split sep a = (a, []).
Proof.
  induction a as [|c a IH]; cbn; [reflexivity|].
  intros H. apply andb_prop in H as [Hc Ha]. rewrite (IH Ha).
  apply negb_true_iff in Hc. now rewrite Hc.
Qed.

Lemma pieces_app (sep : ascii) (a b : string) :
  all_chars (fun c => negb (Ascii.eqb c sep)) a = true ->
  Query.pieces sep (a ++ String sep b) = a :: Query.pieces sep b.
Proof.
  unfold Query.pieces. induction a as [|c a IH]; cbn [String.append all_chars].
  - intros _. cbn [Query.split]. rewrite Ascii.eqb_refl.
    now destruct (Query.split sep b).
  - intros H. apply andb_prop in H as [Hc Ha]. specialize (IH Ha).
    cbn [Query.split]. apply negb_true_iff in Hc. rewrite Hc.
    destruct (Query.split sep (a ++ String sep b)) as [first rest].
    now injection IH as -> ->.
Qed.

Lemma pieces_whole (sep : ascii) (a : string) :
  all_chars (fun c => negb (Ascii.eqb c sep)) a = true ->
  Query.pieces sep a = [a].
Proof. intros H. unfold Query.pieces. now rewrite split_whole. Qed.

Lemma parse_amp (rest : string) :
  Query.parse (String "&" rest) = Query.parse rest.
Proof.
  unfold Query.parse, Query.pieces. cbn [Query.split]. rewrite Ascii.eqb_refl.
  now destruct (Query.split "&" rest).
Qed.

(** One entry in front of a query. *)
Lemma parse_entry (piece rest : string) :
  amp_free piece = true -> amp_led rest = true ->
  Query.parse (String "&" (piece ++ rest))
  = ((if Str.truthy piece then [Query.entry piece] else []) ++ Query.parse rest)%list.
Proof.
  intros Hpiece Hrest. rewrite parse_amp.
  destruct rest as [|c rest].
  - rewrite StrFacts.app_nil_r. unfold Query.parse.
    rewrite (pieces_whole "&" piece Hpiece). cbn.
    destruct (Str.truthy piece); reflexivity.
  - cbn in Hrest. apply Ascii.eqb_eq in Hrest. subst c.
    rewrite parse_amp. unfold Query.parse.
    rewrite (pieces_app "&" piece rest Hpiece). cbn [List.filter].
    destruct (Str.truthy piece); reflexivity.
Qed.

Lemma eq_free_escape (s : string) :
  all_chars (fun c => negb (Ascii.eqb c "=")) (qs.escape s) = true.
Proof.
  apply (all_chars_weaken
           (fun c => negb (Ascii.eqb c "&") && negb (Ascii.eqb c "="))).
  - intros c H. now apply andb_prop in H as [_ H].
  - apply escape_separator_free.
Qed.

Lemma entry_bare (key : string) :
  Query.entry (qs.escape key) = (key, "").
Proof.
  unfold Query.entry. rewrite (split_whole "=" _ (eq_free_escape key)).
  now rewrite unescape_escape.
Qed.

Lemma entry_valued (key value : string) :
  Query.entry (qs.escape key ++ "=" ++ qs.escape value) = (key, value).
Proof.
  unfold Query.entry.
  pose proof (pieces_app "=" _ (qs.escape value) (eq_free_escape key)) as H.
  rewrite (pieces_whole "=" _ (eq_free_escape value)) in H.
  unfold Query.pieces in H. cbn [String.append].
  destruct (Query.split "=" _) as [first rest].
  injection H as -> ->. cbn [Str.join]. now rewrite !unescape_escape.
Qed.

Lemma truthy_app (a b : string) :
  Str.truthy a = true -> Str.truthy (a ++ b) = true.
Proof. destruct a; [discriminate | reflexivity]. Qed.

Lemma amp_led_app (a b : string) :
  amp_led a = true -> amp_led b = true -> amp_led (a ++ b) = true.
Proof. destruct a; cbn; auto. Qed.

Lemma amp_led_attrQuery (name : string) (value : AttrValue) :
  amp_led (attrQuery name value) = true.
Proof. unfold attrQuery. destruct (ignored name); reflexivity. Qed.

Lemma amp_led_body (attrs : Attrs) :
  amp_led (Str.concat (map (fun '(name, value) => attrQuery name value) attrs))
  = true.
Proof.
  induction attrs as [|[name value] attrs IH]; [reflexivity|].
  unfold Str.concat in *. cbn [map fold_right].
  apply amp_led_app; [apply amp_led_attrQuery | exact IH].
Qed.

Lemma amp_led_langQuery (attrs : Attrs) (langFallback : option string)
    (forceLangFallback : bool) :
  amp_led (langQuery attrs langFallback forceLangFallback) = true.
Proof.
  unfold langQuery.
  destruct (_ || _); [|reflexivity].
  destruct (Attr.get "lang" attrs); [destruct forceLangFallback|]; reflexivity.
Qed.

(** The entries read back from the encoded attributes, whatever follows
    them in the query. *)
Lemma parse_body (attrs : Attrs) (rest : string) :
  (forall name value, In (name, value) attrs -> name <> "") ->
  amp_led rest = true ->
  Query.parse
    (Str.concat (map (fun '(name, value) => attrQuery name value) attrs) ++ rest)
  = (readable attrs ++ Query.parse rest)%list.
Proof.
  intros Hkeys Hrest. induction attrs as [|[name value] attrs IH].
  - reflexivity.
  - assert (Hname : name <> "") by (apply (Hkeys name value); now left).
    specialize (IH (fun n v H => Hkeys n v (or_intror H))).
    unfold Str.concat, readable in *. cbn [map fold_right List.filter].
    rewrite StrFacts.app_assoc. unfold attrQuery at 1.
    destruct (ignored name); cbn [negb].
    + exact IH.
    + rewrite !StrFacts.app_assoc. cbn [String.append].
      rewrite <- (StrFacts.app_assoc (qs.escape name)).
      rewrite parse_entry.
      * rewrite IH. cbn [map].
        rewrite truthy_app
          by (rewrite escape_truthy; destruct name; [contradiction | reflexivity]).
        cbn [app]. f_equal.
        destruct (Attr.truthy value).
        -- apply entry_valued.
        -- rewrite StrFacts.app_nil_r. apply entry_bare.
      * unfold amp_free. rewrite all_chars_app.
        fold (amp_free (qs.escape name)). rewrite escape_amp_free.
        destruct (Attr.truthy value); [|reflexivity].
        cbn. apply escape_amp_free.
      * apply amp_led_app; [apply (amp_led_body attrs) | exact Hrest].
Qed.

(** A text without [%] decodes to itself, and a text without separators is
    one bare key. *)
Lemma unescape_plain (s : string) : plain s = true -> Query.unescape s = s.
Proof.
  unfold plain. induction s as [|c s IH]; cbn [all_chars]; [reflexivity|].
  intros H. apply andb_prop in H as [Hc Hs]. specialize (IH Hs).
  apply andb_prop in Hc as [_ Hc]. apply negb_true_iff in Hc.
  cbn [Query.unescape]. rewrite Hc.
  destruct s as [|a [|b s]]; rewrite ?IH; reflexivity.
Qed.

Lemma parse_plain (s : string) :
  plain s = true -> Str.truthy s = true -> Query.parse (String "&" s) = [(s, "")].
Proof.
  intros Hplain Htruthy.
  assert (Hamp : amp_free s = true).
  { revert Hplain. apply all_chars_weaken. intros c H.
    apply andb_prop in H as [H _]. now apply andb_prop in H as [H _]. }
  assert (Heq : all_chars (fun c => negb (Ascii.eqb c "=")) s = true).
  { revert Hplain. apply all_chars_weaken. intros c H.
    apply andb_prop in H as [H _]. now apply andb_prop in H as [_ H]. }
  pose proof (parse_entry s "" Hamp eq_refl) as H.
  rewrite StrFacts.app_nil_r, Htruthy in H. rewrite H.
  unfold Query.parse, Query.entry. rewrite (split_whole "=" s Heq).
  now rewrite (unescape_plain s Hplain).
Qed.

End QueryFacts.

Lemma readable_keys (attrs : Attrs) :
  List.NoDup (Attr.keys attrs) -> List.NoDup (map fst (readable attrs)).
Proof.
  unfold Attr.keys, readable. induction attrs as [|[name value] attrs IH];
    cbn [map List.filter]; intros H; [constructor|].
  apply List.NoDup_cons_iff in H as [Hnotin Hnodup]. specialize (IH Hnodup).
  destruct (negb (ignored name)); [|exact IH].
  cbn [map fst]. apply List.NoDup_cons_iff. split; [|exact IH].
  intros Hin. apply Hnotin. clear -Hin.
  induction attrs as [|[n v] attrs IH]; cbn [map List.filter] in *; [exact Hin|].
  destruct (negb (ignored n)); cbn [map fst] in *; [|right; now apply IH].
  destruct Hin as [<-|Hin]; [now left | right; now apply IH].
Qed.

(** C3, as the code has it.  For an attribute map whose keys are not
    empty, reading the encoded query back gives, in the order of the map,
    every key that is not reserved with its value as a text: a string value
    comes back as it was, a boolean-present value as the text [true].  They
    are followed by what the language suffix reads as: nothing when no
    suffix was appended (no fallback, no [lang] attribute), the bare key
    [lang.<X>] when [X] holds none of [&], [=], [%].  Keys that were
    distinct stay distinct. *)
Theorem query_round_trip (attrs : Attrs) (langFallback : option string)
    (forceLangFallback : bool) :
  (forall name value, In (name, value) attrs -> name <> "") ->
  Query.parse (attrsToQuery attrs langFallback forceLangFallback)
  = (readable attrs ++
     Query.parse (langQuery attrs langFallback forceLangFallback))%list
  /\ (langFallback = None -> Attr.get "lang" attrs = None ->
      Query.parse (attrsToQuery attrs langFallback forceLangFallback)
      = readable attrs)
  /\ (forall X, langQuery attrs langFallback forceLangFallback = "&lang." ++ X ->
      plain X = true ->
      Query.parse (attrsToQuery attrs langFallback forceLangFallback)
      = (readable attrs ++ [(("lang." ++ X)%string, "")])%list)
  /\ (List.NoDup (Attr.keys attrs) -> List.NoDup (map fst (readable attrs))).
Proof.
  intros Hkeys.
  assert (Hparse :
            Query.parse (attrsToQuery attrs langFallback forceLangFallback)
            = (readable attrs ++
               Query.parse (langQuery attrs langFallback forceLangFallback))%list).
  { rewrite attrsToQuery_parts.
    apply QueryFacts.parse_body; [exact Hkeys | apply QueryFacts.amp_led_langQuery]. }
  split; [exact Hparse|]. split; [|split].
  - intros -> Hlang. rewrite Hparse. unfold langQuery. rewrite Hlang.
    cbn. apply app_nil_r.
  - intros X HX Hplain. rewrite Hparse, HX. f_equal.
    apply (QueryFacts.parse_plain ("lang." ++ X)); [|reflexivity].
    unfold plain in *. cbn. exact Hplain.
  - apply readable_keys.
Qed.

(** C3, a map on which the claim fails: the boolean-present attribute
    [scoped] and the attribute [scoped] with the text [true] are two maps
    with one encoding, so no reader of queries gives back both; the one at
    hand reads the text.  A [lang] attribute, itself reserved, comes back
    as an entry of its own. *)
Lemma round_trip_loses_boolean_values :
  attrsToQuery [("scoped", AttrTrue)] None false = "&scoped=true"
  /\ attrsToQuery [("scoped", AttrString "true")] None false = "&scoped=true"
  /\ [("scoped", AttrTrue)] <> [("scoped", AttrString "true")]
  /\ Query.parse (attrsToQuery [("scoped", AttrTrue)] None false)
     = [("scoped", "true")]
  /\ Query.parse (attrsToQuery [("lang", AttrString "ts")] None false)
     = [("lang.ts", "")].
Proof. repeat split; try reflexivity. discriminate. Qed.

(** The amended C3 on a map with a reserved key, a boolean-present value
    and a value that needs escaping. *)
Lemma query_round_trip_witness :
  Query.parse
    (attrsToQuery
       [("scoped", AttrTrue); ("index", AttrString "7");
        ("media", AttrString "screen & (min-width: 1px)")] None false)
  = [("scoped", "true"); ("media", "screen & (min-width: 1px)")].
Proof.
  refine (proj1 (proj2 (query_round_trip
            [("scoped", AttrTrue); ("index", AttrString "7");
             ("media", AttrString "screen & (min-width: 1px)")] None false _))
            eq_refl eq_refl).
  intros name value [H|[H|[H|[]]]]; injection H as <- _; discriminate.
Defined.

(** ** The address of a CSS module without its module flag *)

Module ModuleFacts.

Import EscapeFacts QueryFacts.

Lemma concat_app (xs ys : list string) :
  Str.concat (xs ++ ys) = Str.concat xs ++ Str.concat ys.
Proof.
  unfold Str.concat. induction xs as [|x xs IH]; cbn [app fold_right];
    [reflexivity|].
  now rewrite IH, StrFacts.app_assoc.
Qed.

(** A prefix that does not begin [a] does not begin [a ++ t] either, when
    [t] is empty or begins with a character foreign to the prefix. *)
Lemma strip_prefix_app_none (p a t : string) :
  Str.starts_with p a = false ->
  match t with
  | EmptyString => true
  | String c _ => all_chars (fun x => negb (Ascii.eqb x c)) p
  end = true ->
  Str.strip_prefix p (a ++ t) = None.
Proof.
  revert a. induction p as [|x p IH]; intros a Hstart Ht; [discriminate|].
  destruct a as [|b a]; cbn [String.append].
  - destruct t as [|c t]; [reflexivity|]. cbn in Ht |- *.
    apply andb_prop in Ht as [Hx _]. apply negb_true_iff in Hx. now rewrite Hx.
  - cbn in Hstart |- *. destruct (Ascii.eqb x b); [|reflexivity].
    apply IH; [exact Hstart|].
    destruct t as [|c t]; [reflexivity|]. cbn in Ht.
    now apply andb_prop in Ht as [_ Ht].
Qed.

Lemma strip_prefix_cons (a : ascii) (p s : string) :
  Str.strip_prefix (String a p) (String a s) = Str.strip_prefix p s.
Proof. cbn. now rewrite Ascii.eqb_refl. Qed.

Lemma strip_prefix_app (p s : string) : Str.strip_prefix p (p ++ s) = Some s.
Proof.
  induction p as [|a p IH]; [now destruct s|].
  cbn [String.append]. now rewrite strip_prefix_cons.
Qed.

(** Text without [&] is passed over unchanged. *)
Lemma replace_module_amp_free (piece rest : string) :
  amp_free piece = true ->
  replace_module (piece ++ rest) = piece ++ replace_module rest.
Proof.
  induction piece as [|c piece IH]; intros H; [reflexivity|].
  cbn in H. apply andb_prop in H as [Hc Hpiece]. apply negb_true_iff in Hc.
  cbn [String.append replace_module].
  assert (Hnone : match_module (String c (piece ++ rest)) = None).
  { unfold match_module. cbn [Str.strip_prefix].
    rewrite Ascii.eqb_sym, Hc. reflexivity. }
  rewrite Hnone. f_equal. apply (IH Hpiece).
Qed.

Lemma skip_non_amp_app (piece rest : string) :
  amp_free piece = true -> amp_led rest = true ->
  skip_non_amp (piece ++ rest) = rest.
Proof.
  intros Hpiece Hrest. induction piece as [|c piece IH]; cbn [String.append].
  - destruct rest as [|c rest]; [reflexivity|]. cbn in Hrest |- *. now rewrite Hrest.
  - cbn in Hpiece. apply andb_prop in Hpiece as [Hc Hpiece].
    apply negb_true_iff in Hc. cbn [skip_non_amp]. rewrite Hc. apply (IH Hpiece).
Qed.

(** An attribute whose encoded name does not begin with [module] is passed
    over unchanged. *)
Lemma replace_module_attrQuery (name : string) (value : AttrValue) (rest : string) :
  Str.starts_with "module" (qs.escape name) = false ->
  amp_led rest = true ->
  replace_module (attrQuery name value ++ rest)
  = attrQuery name value ++ replace_module rest.
Proof.
  intros Hname Hrest. unfold attrQuery.
  destruct (ignored name); cbn [negb]; [reflexivity|].
  rewrite !StrFacts.app_assoc. cbn [String.append].
  rewrite <- (StrFacts.app_assoc (qs.escape name) _ rest).
  rewrite <- (StrFacts.app_assoc (qs.escape name) _ (replace_module rest)).
  set (piece := qs.escape name ++ _).
  assert (Hpiece : amp_free piece = true).
  { subst piece. unfold amp_free. rewrite all_chars_app.
    fold (amp_free (qs.escape name)). rewrite escape_amp_free.
    destruct (Attr.truthy value); [|reflexivity]. cbn. apply escape_amp_free. }
  cbn [replace_module].
  assert (Hnone : match_module (String "&" (piece ++ rest)) = None).
  { unfold match_module. rewrite (strip_prefix_cons "&" "module").
    subst piece. rewrite StrFacts.app_assoc.
    rewrite (strip_prefix_app_none "module" (qs.escape name)); [reflexivity | exact Hname |].
    destruct (Attr.truthy value); [reflexivity|].
    cbn [String.append]. destruct rest as [|c rest]; [reflexivity|].
    cbn in Hrest. apply Ascii.eqb_eq in Hrest. now subst c. }
  rewrite Hnone. f_equal. now apply replace_module_amp_free.
Qed.

Lemma replace_module_body (attrs : Attrs) (rest : string) :
  (forall name value, In (name, value) attrs ->
     Str.starts_with "module" (qs.escape name) = false) ->
  amp_led rest = true ->
  replace_module
    (Str.concat (map (fun '(name, value) => attrQuery name value) attrs) ++ rest)
  = Str.concat (map (fun '(name, value) => attrQuery name value) attrs) ++
    replace_module rest.
Proof.
  intros Hnames Hrest. induction attrs as [|[name value] attrs IH]; [reflexivity|].
  unfold Str.concat in *. cbn [map fold_right]. rewrite !StrFacts.app_assoc.
  rewrite replace_module_attrQuery.
  - f_equal. apply IH. intros n v H. apply (Hnames n v). now right.
  - apply (Hnames name value). now left.
  - apply amp_led_app; [apply (amp_led_body attrs) | exact Hrest].
Qed.

(** The [module] attribute itself is what the pattern takes, whole. *)
Lemma replace_module_at (value : AttrValue) (rest : string) :
  Attr.truthy value = true -> whole_module_value value = true ->
  amp_led rest = true ->
  replace_module (attrQuery "module" value ++ rest) = rest.
Proof.
  intros Htruthy Hwhole Hrest.
  assert (Hquery : attrQuery "module" value
                   = "&module" ++ "=" ++ qs.escape (Attr.to_string value)).
  { unfold attrQuery. rewrite Htruthy. reflexivity. }
  assert (Hmatch : match_module (attrQuery "module" value ++ rest) = Some rest).
  { rewrite Hquery, !StrFacts.app_assoc. unfold match_module.
    rewrite strip_prefix_app.
    assert (Htrue : Str.strip_prefix "=true" ("=" ++ "true" ++ rest) = Some rest)
      by apply (strip_prefix_app "=true").
    destruct value as [|s]; [exact Htrue|].
    cbn [Attr.to_string]. cbn in Hwhole, Htruthy.
    destruct (String.eqb_spec s "true") as [->|Hs]; [exact Htrue|].
    cbn [orb] in Hwhole. apply negb_true_iff in Hwhole.
    change ("=" ++ qs.escape s ++ rest) with (String "=" (qs.escape s ++ rest)).
    rewrite (strip_prefix_cons "=" "true").
    rewrite (strip_prefix_app_none "true" (qs.escape s)); [| exact Hwhole |].
    - pose proof (escape_amp_free s) as Hfree.
      pose proof (escape_truthy s) as Hnonempty. rewrite Htruthy in Hnonempty.
      destruct (qs.escape s) as [|c e]; [discriminate|].
      cbn in Hfree. apply andb_prop in Hfree as [Hc He].
      apply negb_true_iff in Hc. cbn [String.append]. cbv beta iota.
      rewrite Hc. now rewrite skip_non_amp_app.
    - destruct rest as [|c rest]; [reflexivity|].
      cbn in Hrest. apply Ascii.eqb_eq in Hrest. now subst c. }
  destruct (attrQuery "module" value ++ rest) as [|c q] eqn:Hq;
    cbn [replace_module]; now rewrite Hmatch.
Qed.

Lemma get_without_module (pre post : Attrs) (value : AttrValue) :
  Attr.get "lang" (pre ++ ("module", value) :: post)%list
  = Attr.get "lang" (pre ++ post)%list.
Proof.
  induction pre as [|[n v] pre IH]; cbn [app Attr.get]; [reflexivity|].
  now rewrite IH.
Qed.

(** The encoded attributes with the first match of the pattern removed
    are the encoded attributes of the map without its [module] key. *)
Lemma replace_module_attrsToQuery (pre post : Attrs) (value : AttrValue)
    (langFallback : option string) (forceLangFallback : bool) :
  (forall name v, In (name, v) pre ->
     Str.starts_with "module" (qs.escape name) = false) ->
  Attr.truthy value = true -> whole_module_value value = true ->
  replace_module
    (attrsToQuery (pre ++ ("module", value) :: post)%list langFallback
       forceLangFallback)
  = attrsToQuery (pre ++ post)%list langFallback forceLangFallback.
Proof.
  intros Hpre Htruthy Hwhole. rewrite !attrsToQuery_parts.
  unfold langQuery. rewrite get_without_module.
  fold (langQuery (pre ++ post)%list langFallback forceLangFallback).
  rewrite !map_app, !concat_app. cbn [map]. unfold Str.concat at 2.
  cbn [fold_right]. fold (Str.concat). rewrite !StrFacts.app_assoc.
  rewrite replace_module_body; [f_equal | exact Hpre |].
  - apply replace_module_at; [exact Htruthy | exact Hwhole |].
    apply amp_led_app; [apply amp_led_body | apply amp_led_langQuery].
  - unfold attrQuery at 1. cbn. reflexivity.
Qed.

End ModuleFacts.

(** ** Style sections *)

Module StyleFacts.

Lemma declared_app (a b : string) : declared a -> declared (a ++ b).
Proof.
  intros (x & y & ->). exists x, (y ++ b). now rewrite !StrFacts.app_assoc.
Qed.

(** One step of the loop of [genStyleCode] appends to the text; once the
    flag is set the declaration of the map is in the text. *)
Lemma styleStep_appends (resourcePath id : string) (force : bool)
    (stylesCode : string) (hasCSSModules : bool) (style : SFCBlock) (i : nat) :
  exists text has,
    styleStep resourcePath id force (stylesCode, hasCSSModules) style i
    = (stylesCode ++ text, has) /\
    ((hasCSSModules = true -> declared stylesCode) ->
     has = true -> declared (stylesCode ++ text)).
Proof.
  unfold styleStep. destruct (module style) as [m|];
    [destruct (module_truthy (Some m)); [destruct hasCSSModules; cbn [negb]|]|].
  - eexists. exists true. split; [reflexivity|].
    intros H _. apply declared_app, H. reflexivity.
  - eexists. exists true. rewrite !StrFacts.app_assoc. split; [reflexivity|].
    intros _ _. exists stylesCode. eexists. unfold declaration.
    rewrite !StrFacts.app_assoc. reflexivity.
  - eexists. exists hasCSSModules. split; [reflexivity|].
    intros H Hhas. apply declared_app, H, Hhas.
  - eexists. exists hasCSSModules. split; [reflexivity|].
    intros H Hhas. apply declared_app, H, Hhas.
Qed.

Lemma forEach_styleStep_appends (resourcePath id : string) (force : bool)
    (styles : list SFCBlock) (i : nat) (stylesCode : string) (hasCSSModules : bool) :
  exists text has,
    forEach (styleStep resourcePath id force) styles i (stylesCode, hasCSSModules)
    = (stylesCode ++ text, has) /\
    ((hasCSSModules = true -> declared stylesCode) ->
     has = true -> declared (stylesCode ++ text)).
Proof.
  revert i stylesCode hasCSSModules.
  induction styles as [|style styles IH]; intros i stylesCode hasCSSModules;
    cbn [forEach].
  - exists "", hasCSSModules. rewrite StrFacts.app_nil_r. auto.
  - destruct (styleStep_appends resourcePath id force stylesCode hasCSSModules
                style i) as (text & has & -> & Hstep).
    destruct (IH (S i) (stylesCode ++ text) has) as (text' & has' & -> & Hrest).
    exists (text ++ text'), has'. rewrite StrFacts.app_assoc.
    split; [reflexivity|]. intros H Hhas'.
    rewrite <- StrFacts.app_assoc. auto.
Qed.

(** The step for a style section whose module flag is set. *)
Lemma styleStep_module (resourcePath id : string) (force : bool)
    (stylesCode : string) (hasCSSModules : bool) (style : SFCBlock) (i : nat)
    (m : ModuleFlag) :
  module style = Some m -> module_truthy (Some m) = true ->
  styleStep resourcePath id force (stylesCode, hasCSSModules) style i
  = (stylesCode ++ (if hasCSSModules then "" else declaration) ++
     Str.nl ++ "import " ++
     JSON.stringify (styleRequestWithoutModule style i resourcePath id force) ++
     Str.nl ++ "import style" ++ Str.of_nat i ++ " from " ++
     JSON.stringify (styleRequest style i resourcePath id force ++ ".js") ++
     Str.nl ++ "cssModules[" ++
     String Str.dquote
       (match m with ModuleName s => s | ModuleBool _ => "$style" end) ++
     String Str.dquote "] = " ++ "style" ++ Str.of_nat i,
     true).
Proof.
  intros Hm Htruthy. unfold styleStep. rewrite Hm, Htruthy.
  unfold genCSSModulesCode, declaration.
  destruct hasCSSModules; cbn [negb]; rewrite !StrFacts.app_assoc; reflexivity.
Qed.

End StyleFacts.

(** C2, as the code has it.  For a style section at index [i] whose module
    flag is set, whose [module] attribute is the first attribute with an
    encoded name beginning with [module], and whose module value is boolean
    or a name that the pattern takes whole, two addresses are generated.
    Both are the path followed by [?vue&type=style&index=<i>], the [src]
    flag and the [id]; the export-map address, imported with the suffix
    [.js], goes on with the encoded attributes, and the side-effect address
    with the encoded attributes of the map without its [module] key.  The
    style text holds, one after the other, the import of the side-effect
    address, the import of the export map as [style<i>], and the assignment
    [cssModules["<name>"] = style<i>], where the name is the module name,
    or [$style] for a boolean flag, and where [cssModules] is the map that
    an earlier line of the text creates with
    [const cssModules = script.__cssModules = {}]. *)
Theorem css_module_addresses (d : SFCDescriptor) (resourcePath id : string)
    (preprocessStyles : option bool) (before after : list SFCBlock)
    (style : SFCBlock) (m : ModuleFlag) (pre post : Attrs) (value : AttrValue) :
  styles d = (before ++ style :: after)%list ->
  module style = Some m -> module_truthy (Some m) = true ->
  attrs style = (pre ++ ("module", value) :: post)%list ->
  (forall name v, In (name, v) pre ->
     Str.starts_with "module" (qs.escape name) = false) ->
  Attr.truthy value = true -> whole_module_value value = true ->
  let i := length before in
  let force := match preprocessStyles with Some b => b | None => false end in
  let base :=
    src_or style resourcePath ++ "?vue&type=style&index=" ++ Str.of_nat i ++
    srcQuery style ++ "&id=" ++ id in
  let request := base ++ attrsToQuery (attrs style) (Some "css") force in
  let requestWithoutModule :=
    base ++ attrsToQuery (pre ++ post)%list (Some "css") force in
  let name := match m with ModuleName s => s | ModuleBool _ => "$style" end in
  styleRequest style i resourcePath id force = request /\
  styleRequestWithoutModule style i resourcePath id force = requestWithoutModule /\
  exists head0 head1 tail,
    genStyleCode d resourcePath id preprocessStyles
    = (head0 ++ Str.nl ++ "const cssModules = script.__cssModules = {}" ++ head1) ++
      Str.nl ++ "import " ++ JSON.stringify requestWithoutModule ++
      Str.nl ++ "import style" ++ Str.of_nat i ++ " from " ++
      JSON.stringify (request ++ ".js") ++
      Str.nl ++ "cssModules[" ++ String Str.dquote name ++
      String Str.dquote "] = " ++ "style" ++ Str.of_nat i ++
      tail.
Proof.
  intros Hstyles Hm Htruthy Hattrs Hpre Hvalue Hwhole i force base request
    requestWithoutModule name.
  assert (Hrequest : styleRequest style i resourcePath id force = request).
  { subst request base. unfold styleRequest, styleQuery.
    rewrite !StrFacts.app_assoc. reflexivity. }
  assert (Hwithout :
            styleRequestWithoutModule style i resourcePath id force
            = requestWithoutModule).
  { subst requestWithoutModule base. unfold styleRequestWithoutModule, styleQuery.
    rewrite Hattrs, ModuleFacts.replace_module_attrsToQuery by assumption.
    rewrite !StrFacts.app_assoc. reflexivity. }
  split; [exact Hrequest|]. split; [exact Hwithout|].
  unfold genStyleCode. fold force. rewrite Hstyles.
  replace (negb (length (before ++ style :: after) =? 0)%nat) with true
    by (rewrite length_app; cbn; now destruct (length before + _)%nat eqn:E; [lia|]).
  rewrite forEach_app. cbn [forEach Nat.add]. fold i.
  destruct (StyleFacts.forEach_styleStep_appends resourcePath id force before 0
              "" false) as (text & has & -> & Hdeclared).
  rewrite (StyleFacts.styleStep_module resourcePath id force _ has style i m Hm Htruthy).
  rewrite Hrequest, Hwithout.
  match goal with
  | |- context [forEach _ after (S i) (?stylesCode, true)] =>
      destruct (StyleFacts.forEach_styleStep_appends resourcePath id force after
                  (S i) stylesCode true) as (tail & has' & -> & _)
  end.
  cbn [fst].
  assert (Hhead : declared
                    (text ++ (if has then "" else declaration))).
  { destruct has.
    - rewrite StrFacts.app_nil_r.
      apply (Hdeclared ltac:(discriminate) eq_refl).
    - exists text, "". now rewrite StrFacts.app_nil_r. }
  destruct Hhead as (head0 & head1 & Hhead). exists head0, head1, tail.
  unfold declaration in Hhead.
  rewrite !StrFacts.app_assoc in Hhead. rewrite <- Hhead.
  change (String.append "") with (fun s : string => s). cbv beta.
  rewrite !StrFacts.app_assoc. reflexivity.
Qed.

(** The document of two style sections, the second a CSS module named
    [classes]: the style text in full. *)
Lemma two_styles_text :
  genStyleCode Examples.twoStyles "/app/src/App.vue" "1046" None
  = Str.nl ++ "import " ++
    JSON.stringify "/app/src/App.vue?vue&type=style&index=0&id=1046&lang.css" ++
    Str.nl ++ "const cssModules = script.__cssModules = {}" ++
    Str.nl ++ "import " ++
    JSON.stringify "/app/src/App.vue?vue&type=style&index=1&id=1046&lang.css" ++
    Str.nl ++ "import style1 from " ++
    JSON.stringify
      "/app/src/App.vue?vue&type=style&index=1&id=1046&module=classes&lang.css.js" ++
    Str.nl ++ "cssModules[" ++ String Str.dquote "classes" ++
    String Str.dquote "] = style1".
Proof. vm_compute. reflexivity. Qed.

(** C2, the document on which the claim fails: the module assigns the
    export map of the second style section through [cssModules], and the
    text [script.__cssModules["classes"] = style1] is nowhere in it. *)
Lemma css_module_assignment_text :
  Str.includes
    ("script.__cssModules[" ++ String Str.dquote "classes" ++
     String Str.dquote "] = style1")
    (Examples.moduleText
       (Examples.transform Examples.twoStyles [] false false
          Examples.recordingContext)) = false
  /\ Str.includes
       ("cssModules[" ++ String Str.dquote "classes" ++ String Str.dquote "] = style1")
       (Examples.moduleText
          (Examples.transform Examples.twoStyles [] false false
             Examples.recordingContext)) = true
  /\ Str.includes "const cssModules = script.__cssModules = {}"
       (Examples.moduleText
          (Examples.transform Examples.twoStyles [] false false
             Examples.recordingContext)) = true.
Proof. vm_compute. repeat split. Qed.

(** The amended C2 on the second style section of that document. *)
Lemma css_module_addresses_witness :
  styleRequest Examples.moduleStyle 1 "/app/src/App.vue" "1046" false
  = "/app/src/App.vue?vue&type=style&index=1&id=1046&module=classes&lang.css"
  /\ styleRequestWithoutModule Examples.moduleStyle 1 "/app/src/App.vue" "1046" false
     = "/app/src/App.vue?vue&type=style&index=1&id=1046&lang.css".
Proof.
  pose proof (css_module_addresses Examples.twoStyles "/app/src/App.vue" "1046"
                None [Examples.styleBlock [] None] [] Examples.moduleStyle
                (ModuleName "classes") [] [] (AttrString "classes")
                eq_refl eq_refl eq_refl eq_refl
                (fun name v (H : In (name, v) []) => match H with end)
                eq_refl eq_refl) as H.
  exact (conj (proj1 H) (proj1 (proj2 H))).
Defined.

(** Outside the conditions of C2 the pattern cuts elsewhere: on a module
    name that begins with the letters of [true] it takes [=true] and leaves
    the rest of the name behind, and after an attribute whose name begins
    with [module] it cuts into that attribute. *)
Lemma replace_module_cuts_elsewhere :
  styleRequestWithoutModule
    (Examples.styleBlock [("module", AttrString "trueColors")]
       (Some (ModuleName "trueColors")))
    0 "/app/src/App.vue" "1046" false
  = "/app/src/App.vue?vue&type=style&index=0&id=1046Colors&lang.css"
  /\ styleRequestWithoutModule
       (Examples.styleBlock [("modules", AttrTrue); ("module", AttrTrue)]
          (Some (ModuleBool true)))
       0 "/app/src/App.vue" "1046" false
     = "/app/src/App.vue?vue&type=style&index=0&id=1046s=true&module=true&lang.css".
Proof. vm_compute. split; reflexivity. Qed.

(** * Further properties of the entry transform *)

(** ** The normalized path *)

Module PathFacts.

(** [strip_parent_escapes], one step at a time. *)
Lemma strip_parent_escapes_step (s : string) :
  strip_parent_escapes s
  = match s with
    | String a (String b (String c s')) =>
        if parent_escape s then strip_parent_escapes s' else s
    | _ => s
    end.
Proof.
  destruct s as [|a [|b [|c s']]]; try reflexivity.
  - destruct a as [[] [] [] [] [] [] [] []]; reflexivity.
  - destruct a as [[] [] [] [] [] [] [] []]; try reflexivity;
      destruct b as [[] [] [] [] [] [] [] []]; reflexivity.
  - destruct a as [[] [] [] [] [] [] [] []]; try reflexivity;
      destruct b as [[] [] [] [] [] [] [] []]; reflexivity.
Qed.

(** Induction that follows [strip_parent_escapes]: three characters at a
    time. *)
Lemma by_threes (P : string -> Prop) :
  (forall s, (forall a b c s', s = String a (String b (String c s')) -> P s') -> P s) ->
  forall s, P s.
Proof.
  intros step. fix IH 1. intros s. apply step.
  destruct s as [|a [|b [|c s']]]; intros a0 b0 c0 s0 H; try discriminate.
  injection H as _ _ _ <-. apply IH.
Qed.

Lemma parent_escape_slashes (s : string) :
  parent_escape (slashes s) = parent_escape s.
Proof.
  destruct s as [|a [|b [|c s']]]; try reflexivity.
  cbn [slashes parent_escape].
  destruct (Ascii.eqb_spec a Str.backslash) as [->|_];
    destruct (Ascii.eqb_spec b Str.backslash) as [->|_];
    destruct (Ascii.eqb_spec c Str.backslash) as [->|Hc];
    try reflexivity; cbn; rewrite ?andb_false_r; try reflexivity.
  apply Ascii.eqb_neq in Hc. now rewrite Hc.
Qed.

Lemma strip_parent_escapes_done (s : string) :
  parent_escape (strip_parent_escapes s) = false.
Proof.
  revert s. apply by_threes. intros s IH.
  rewrite strip_parent_escapes_step.
  destruct s as [|a [|b [|c s']]]; try reflexivity.
  destruct (parent_escape (String a (String b (String c s')))) eqn:E;
    [|exact E]. now apply (IH a b c).
Qed.

Lemma slashes_strip_parent_escapes (s : string) :
  slashes (strip_parent_escapes s) = strip_parent_escapes (slashes s).
Proof.
  revert s. apply by_threes. intros s IH.
  rewrite (strip_parent_escapes_step s), (strip_parent_escapes_step (slashes s)).
  rewrite parent_escape_slashes.
  destruct s as [|a [|b [|c s']]]; try reflexivity.
  destruct (parent_escape (String a (String b (String c s'))));
    [|reflexivity].
  now apply (IH a b c).
Qed.

Lemma slashes_free (s : string) :
  all_chars (fun c => negb (Ascii.eqb c Str.backslash)) (slashes s) = true.
Proof.
  induction s as [|c s IH]; cbn [slashes all_chars]; [reflexivity|].
  rewrite IH, andb_true_r.
  destruct (Ascii.eqb_spec c Str.backslash) as [->|Hc]; [reflexivity|].
  now apply negb_true_iff, Ascii.eqb_neq.
Qed.

Lemma slashes_escapes (s : string) :
  exists n,
    slashes s = Str.concat (repeat "../" n) ++ slashes (strip_parent_escapes s).
Proof.
  revert s. apply by_threes. intros s IH.
  rewrite strip_parent_escapes_step.
  destruct s as [|a [|b [|c s']]]; try (exists 0; reflexivity).
  destruct (parent_escape (String a (String b (String c s')))) eqn:E;
    [|exists 0; reflexivity].
  destruct (IH a b c s' eq_refl) as [n Hn]. exists (S n).
  cbn [parent_escape] in E.
  apply andb_prop in E as [E Hc]. apply andb_prop in E as [Ha Hb].
  apply Ascii.eqb_eq in Ha, Hb. subst a b.
  cbn [slashes repeat]. unfold Str.concat in *. cbn [fold_right].
  rewrite Hn at 1. rewrite StrFacts.app_assoc.
  apply orb_prop in Hc as [Hc|Hc]; apply Ascii.eqb_eq in Hc; subst c; reflexivity.
Qed.

End PathFacts.

(** X1. The path that is hashed and shown as [__file] holds no backslash,
    does not begin with [../], and is the relative path with its separators
    turned into [/] and nothing but a run of leading [../] taken off. *)
Theorem shortFilePath_shape (path_relative : string -> string -> string)
    (sourceRoot resourcePath : string) :
  all_chars (fun c => negb (Ascii.eqb c Str.backslash))
    (shortFilePath path_relative sourceRoot resourcePath) = true
  /\ parent_escape (shortFilePath path_relative sourceRoot resourcePath) = false
  /\ exists n,
       slashes (path_relative sourceRoot resourcePath)
       = Str.concat (repeat "../" n) ++
         shortFilePath path_relative sourceRoot resourcePath.
Proof.
  unfold shortFilePath. split; [apply PathFacts.slashes_free|]. split.
  - rewrite PathFacts.parent_escape_slashes.
    apply PathFacts.strip_parent_escapes_done.
  - apply PathFacts.slashes_escapes.
Qed.

(** X2. The normalized path does not depend on the kind of separator:
    turning the backslashes into [/] before the leading parent escapes are
    dropped gives the same path as doing it after, so two relative paths
    that differ only in their separators have one normalized path and one
    scope token. *)
Theorem shortFilePath_separator_independent (hash : string -> string)
    (relative relative' : string -> string -> string)
    (code sourceRoot resourcePath sourceRoot' resourcePath' : string)
    (isProduction : bool) :
  shortFilePath relative sourceRoot resourcePath
  = strip_parent_escapes (slashes (relative sourceRoot resourcePath))
  /\ (slashes (relative sourceRoot resourcePath)
      = slashes (relative' sourceRoot' resourcePath') ->
      shortFilePath relative sourceRoot resourcePath
      = shortFilePath relative' sourceRoot' resourcePath'
      /\ scopeId hash relative code resourcePath sourceRoot isProduction
         = scopeId hash relative' code resourcePath' sourceRoot' isProduction).
Proof.
  unfold scopeId, scopeInput, shortFilePath.
  split; [apply PathFacts.slashes_strip_parent_escapes|].
  intros H. rewrite !PathFacts.slashes_strip_parent_escapes, H. now split.
Qed.

(** ** More on the query encoder *)

Module EncoderFacts.

Import EscapeFacts QueryFacts.

Lemma routing_key_cases (name : string) :
  routing_key name = true ->
  ignored name = true /\ String.eqb name "lang" = false.
Proof.
  unfold routing_key, ignored, ignoreList. cbn [existsb]. intros H.
  repeat (apply orb_prop in H as [H|H];
          [apply String.eqb_eq in H; subst name; split; reflexivity|]).
  discriminate.
Qed.

Lemma body_without_routing_keys (attrs : Attrs) :
  Str.concat
    (map (fun '(name, value) => attrQuery name value)
       (List.filter (fun '(name, _) => negb (routing_key name)) attrs))
  = Str.concat (map (fun '(name, value) => attrQuery name value) attrs).
Proof.
  unfold Str.concat.
  induction attrs as [|[name value] attrs IH]; cbn [List.filter map fold_right];
    [reflexivity|].
  destruct (routing_key name) eqn:E; cbn [negb map fold_right].
  - apply routing_key_cases in E as [E _]. unfold attrQuery at 2.
    rewrite E. exact IH.
  - now rewrite IH.
Qed.

Lemma get_lang_without_routing_keys (attrs : Attrs) :
  Attr.get "lang" (List.filter (fun '(name, _) => negb (routing_key name)) attrs)
  = Attr.get "lang" attrs.
Proof.
  induction attrs as [|[name value] attrs IH]; cbn [List.filter Attr.get];
    [reflexivity|].
  destruct (routing_key name) eqn:E; cbn [negb Attr.get].
  - apply routing_key_cases in E as [_ E]. now rewrite E.
  - now rewrite IH.
Qed.




Lemma langQuery_forced (attrs : Attrs) (fallback : string) :
  Str.truthy fallback = true ->
  langQuery attrs (Some fallback) true = "&lang." ++ fallback.
Proof.
  intros H. unfold langQuery. cbn [opt_truthy]. rewrite H. cbn [orb opt_render].
  now destruct (Attr.get "lang" attrs).
Qed.

Lemma langQuery_default (attrs : Attrs) (fallback : string) :
  Str.truthy fallback = true ->
  langQuery attrs (Some fallback) false
  = "&lang." ++ match Attr.get "lang" attrs with
                | Some value => Attr.to_string value
                | None => fallback
                end.
Proof.
  intros H. unfold langQuery. cbn [opt_truthy]. rewrite H. cbn [orb opt_render].
  now destruct (Attr.get "lang" attrs).
Qed.

End EncoderFacts.

(** X3. An attribute named [id], [index], [src] or [type] has no effect on
    the encoded query: the query of a map is the query of the map without
    those keys. *)
Theorem routing_keys_do_not_reach_the_query (attrs : Attrs)
    (langFallback : option string) (forceLangFallback : bool) :
  attrsToQuery (List.filter (fun '(name, _) => negb (routing_key name)) attrs)
    langFallback forceLangFallback
  = attrsToQuery attrs langFallback forceLangFallback.
Proof.
  rewrite !attrsToQuery_parts, EncoderFacts.body_without_routing_keys.
  unfold langQuery. now rewrite EncoderFacts.get_lang_without_routing_keys.
Qed.


(** X5. Without a language suffix the encoding tells the readable entries
    apart: two maps with non-empty keys, no [lang] attribute and the same
    query have the same keys outside the reserved ones, in the same order,
    with the same values as text. *)
Theorem encoding_determines_entries (attrs attrs' : Attrs) (force force' : bool) :
  (forall name value, In (name, value) attrs -> name <> "") ->
  (forall name value, In (name, value) attrs' -> name <> "") ->
  Attr.get "lang" attrs = None -> Attr.get "lang" attrs' = None ->
  attrsToQuery attrs None force = attrsToQuery attrs' None force' ->
  readable attrs = readable attrs'.
Proof.
  intros Hkeys Hkeys' Hlang Hlang' Hsame.
  rewrite !attrsToQuery_parts in Hsame. unfold langQuery in Hsame.
  rewrite Hlang, Hlang' in Hsame. cbn [opt_truthy orb] in Hsame.
  apply (f_equal Query.parse) in Hsame.
  rewrite !QueryFacts.parse_body in Hsame by (assumption || reflexivity).
  now rewrite !app_nil_r in Hsame.
Qed.

(** X5 on two maps with one query: a reserved key more, and the text
    [true] for the boolean. *)
Lemma encoding_determines_entries_witness :
  readable [("scoped", AttrTrue); ("media", AttrString "print")]
  = readable [("id", AttrString "7"); ("scoped", AttrString "true");
              ("media", AttrString "print")].
Proof.
  refine (encoding_determines_entries
            [("scoped", AttrTrue); ("media", AttrString "print")]
            [("id", AttrString "7"); ("scoped", AttrString "true");
             ("media", AttrString "print")] false true _ _ eq_refl eq_refl eq_refl).
  - intros name value [H|[H|[]]]; injection H as <- _; discriminate.
  - intros name value [H|[H|[H|[]]]]; injection H as <- _; discriminate.
Defined.

(** X6. The language suffix by kind of section.  A template address ends
    in [&lang.js] whatever language the template declares, and so does a
    style address in [&lang.css] when styles are preprocessed; otherwise a
    style, a script and a custom block end in [&lang.] and their own [lang]
    value, or [css], [js] and the type of the block when they declare
    none. *)
Theorem lang_suffix_by_section :
  (forall t resourcePath id,
     templateRequest t resourcePath id
     = src_or t resourcePath ++ "?vue&type=template&id=" ++ id ++ srcQuery t ++
       Str.concat (map (fun '(name, value) => attrQuery name value) (attrs t)) ++
       "&lang.js")
  /\ (forall style i resourcePath id,
        styleRequest style i resourcePath id true
        = src_or style resourcePath ++ styleQuery style i id ++
          Str.concat (map (fun '(name, value) => attrQuery name value) (attrs style)) ++
          "&lang.css")
  /\ (forall style i resourcePath id,
        styleRequest style i resourcePath id false
        = src_or style resourcePath ++ styleQuery style i id ++
          Str.concat (map (fun '(name, value) => attrQuery name value) (attrs style)) ++
          "&lang." ++
          match Attr.get "lang" (attrs style) with
          | Some value => Attr.to_string value
          | None => "css"
          end)
  /\ (forall script resourcePath,
        scriptRequest script resourcePath
        = src_or script resourcePath ++ "?vue&type=script" ++ srcQuery script ++
          Str.concat (map (fun '(name, value) => attrQuery name value) (attrs script)) ++
          "&lang." ++
          match Attr.get "lang" (attrs script) with
          | Some value => Attr.to_string value
          | None => "js"
          end)
  /\ (forall block index resourcePath,
        type block <> "" ->
        customBlockRequest block index resourcePath
        = src_or block resourcePath ++ "?vue&type=" ++ type block ++ "&index=" ++
          Str.of_nat index ++ srcQuery block ++
          Str.concat (map (fun '(name, value) => attrQuery name value) (attrs block)) ++
          "&lang." ++
          match Attr.get "lang" (attrs block) with
          | Some value => Attr.to_string value
          | None => type block
          end).
Proof.
  unfold templateRequest, styleRequest, scriptRequest, customBlockRequest.
  repeat split; intros; rewrite attrsToQuery_parts;
    rewrite ?EncoderFacts.langQuery_forced, ?EncoderFacts.langQuery_default
      by (reflexivity || now destruct (type block));
    rewrite ?StrFacts.app_assoc; reflexivity.
Qed.

(** ** The style text, section by section *)

Module StyleTextFacts.

Lemma module_truthy_text (style : SFCBlock) (resourcePath id : string)
    (force declaredBefore : bool) (i : nat) (stylesCode : string) :
  styleStep resourcePath id force (stylesCode, declaredBefore) style i
  = (stylesCode ++ styleText resourcePath id force declaredBefore i style,
     declaredBefore || module_truthy (module style)).
Proof.
  unfold styleStep, styleText. destruct (module style) as [m|].
  - destruct (module_truthy (Some m)).
    + rewrite orb_true_r. unfold declaration.
      destruct declaredBefore; cbn [negb]; rewrite ?StrFacts.app_assoc; reflexivity.
    + now rewrite orb_false_r.
  - now rewrite orb_false_r.
Qed.

Lemma forEach_styleStep (resourcePath id : string) (force : bool)
    (styles : list SFCBlock) (i : nat) (stylesCode : string) (declaredBefore : bool) :
  forEach (styleStep resourcePath id force) styles i (stylesCode, declaredBefore)
  = (stylesCode ++
     Str.concat
       (imap (fun k style =>
                styleText resourcePath id force
                  (declaredBefore || has_module (firstn k styles)) (i + k) style)
          styles),
     declaredBefore || has_module styles).
Proof.
  revert i stylesCode declaredBefore.
  induction styles as [|style styles IH]; intros i stylesCode declaredBefore;
    cbn [forEach imap].
  - unfold has_module. cbn. now rewrite StrFacts.app_nil_r, orb_false_r.
  - assert (Hcons : forall l, has_module (style :: l)
                               = module_truthy (module style) || has_module l)
      by reflexivity.
    rewrite module_truthy_text, IH. unfold Str.concat. cbn [fold_right].
    rewrite Hcons, orb_assoc, StrFacts.app_assoc. f_equal.
    change (has_module []) with false. rewrite orb_false_r, Nat.add_0_r.
    do 3 f_equal. apply imap_ext. intros k x _. unfold compose.
    cbn [firstn]. rewrite Hcons, orb_assoc. f_equal. lia.
Qed.

Lemma app_inv_tail (a b t : string) : a ++ t = b ++ t -> a = b.
Proof.
  assert (Hlen : forall x y : string,
             String.length (x ++ y) = String.length x + String.length y).
  { intros x y. induction x as [|c x IH]; cbn; [reflexivity | now rewrite IH]. }
  revert b. induction a as [|c a IH]; intros [|d b] H; cbn [String.append] in H.
  - reflexivity.
  - apply (f_equal String.length) in H. cbn in H. rewrite Hlen in H. lia.
  - apply (f_equal String.length) in H. cbn in H. rewrite Hlen in H. lia.
  - injection H as -> H. f_equal. now apply IH.
Qed.

(** The decimal rendering tells the numbers apart. *)
Lemma of_nat_inj (i j : nat) : Str.of_nat i = Str.of_nat j -> i = j.
Proof.
  unfold Str.of_nat. intros H.
  apply (f_equal NilEmpty.uint_of_string) in H. rewrite !NilEmpty.usu in H.
  injection H as H. apply (f_equal Nat.of_uint) in H.
  now rewrite !DecimalNat.Unsigned.of_to in H.
Qed.

End StyleTextFacts.

(** X7. The style text is the concatenation, in parse order, of one piece
    per style section, addressed by the position of the section.  A plain
    section gives one import of its address.  A CSS module gives the import
    of its side-effect address, the import of its export map and the
    assignment to [cssModules]; the line that creates [cssModules] is
    written once, in front of the first CSS module and of no other.  A
    document without style sections has no style text. *)
Theorem style_text_by_position (d : SFCDescriptor) (resourcePath id : string)
    (preprocessStyles : option bool) :
  let force := match preprocessStyles with Some b => b | None => false end in
  genStyleCode d resourcePath id preprocessStyles
  = Str.concat
      (imap
         (fun i style =>
            match module style with
            | Some m =>
                if module_truthy (Some m) then
                  (if has_module (firstn i (styles d)) then ""
                   else Str.nl ++ "const cssModules = script.__cssModules = {}") ++
                  genCSSModulesCode id i (styleRequest style i resourcePath id force)
                    (styleRequestWithoutModule style i resourcePath id force) m
                else
                  Str.nl ++ "import " ++
                  JSON.stringify (styleRequest style i resourcePath id force)
            | None =>
                Str.nl ++ "import " ++
                JSON.stringify (styleRequest style i resourcePath id force)
            end)
         (styles d)).
Proof.
  intros force. unfold genStyleCode. fold force.
  destruct (styles d) as [|style styles] eqn:E; [reflexivity|].
  cbn [length Nat.eqb negb].
  rewrite StyleTextFacts.forEach_styleStep. cbn [fst orb Nat.add].
  change (String.append "") with (fun s : string => s). cbv beta.
  f_equal.
Qed.

(** X8. Sections of one kind are told apart by their index: the same
    style section, or the same custom block, at two positions has two
    different addresses. *)
Theorem index_separates_addresses :
  (forall style i j resourcePath id force,
     styleRequest style i resourcePath id force
     = styleRequest style j resourcePath id force -> i = j)
  /\ (forall style i j resourcePath id force,
        styleRequest style i resourcePath id force ++ ".js"
        = styleRequest style j resourcePath id force ++ ".js" -> i = j)
  /\ (forall block i j resourcePath,
        customBlockRequest block i resourcePath
        = customBlockRequest block j resourcePath -> i = j).
Proof.
  assert (Hstyle : forall style i j resourcePath id force,
             styleRequest style i resourcePath id force
             = styleRequest style j resourcePath id force -> i = j).
  { intros style i j resourcePath id force H.
    unfold styleRequest, styleQuery in H. cbv zeta in H.
    apply StrFacts.app_inv_head in H. rewrite ?StrFacts.app_assoc in H.
    apply (StrFacts.app_inv_head "?vue&type=style&index=") in H.
    apply StyleTextFacts.app_inv_tail in H.
    now apply StyleTextFacts.of_nat_inj. }
  split; [exact Hstyle|]. split.
  - intros style i j resourcePath id force H.
    apply StyleTextFacts.app_inv_tail in H. now apply Hstyle in H.
  - intros block i j resourcePath H. unfold customBlockRequest in H.
    cbv zeta in H.
    apply StrFacts.app_inv_head in H. rewrite ?StrFacts.app_assoc in H.
    apply (StrFacts.app_inv_head "?vue&type=") in H.
    apply StrFacts.app_inv_head in H.
    apply (StrFacts.app_inv_head "&index=") in H.
    apply StyleTextFacts.app_inv_tail in H.
    now apply StyleTextFacts.of_nat_inj.
Qed.

(** ** More on the entry transform *)

Lemma reportErrors_until_raise (pluginContext : TransformPluginContext)
    (resourcePath : string) (before : list CompilerError) (error : CompilerError)
    (after : list CompilerError) (w : World) :
  (forall x, In x before ->
     error_raises pluginContext (createRollupError resourcePath x) = false) ->
  error_raises pluginContext (createRollupError resourcePath error) = true ->
  reportErrors pluginContext resourcePath (before ++ error :: after) w
  = (Throw (createRollupError resourcePath error),
     mkWorld (descriptorCache w)
       (reported w ++ map (createRollupError resourcePath) (before ++ [error]))).
Proof.
  intros Hbefore Hraise. revert w.
  induction before as [|x before IH]; intros w; cbn [app reportErrors map].
  - now rewrite Hraise.
  - rewrite (Hbefore x) by now left.
    rewrite IH by (intros y Hy; apply Hbefore; now right).
    cbn [descriptorCache reported]. now rewrite <- app_assoc.
Qed.

Module TextFacts.

Lemma join_cons (sep x y : string) (rest : list string) :
  Str.join sep (x :: y :: rest) = x ++ sep ++ Str.join sep (y :: rest).
Proof. reflexivity. Qed.

(** [join] with the last element set apart. *)
Lemma join_push (sep : string) (output : list string) (x last : string) :
  Str.join sep (push (x :: output) last) = Str.join sep (x :: output) ++ sep ++ last.
Proof.
  unfold push. revert x. induction output as [|y output IH]; intros x.
  - reflexivity.
  - pose proof (IH y) as H. cbn [app] in H |- *.
    now rewrite !join_cons, H, !StrFacts.app_assoc.
Qed.

Lemma genStyleCode_styles (d d' : SFCDescriptor) (resourcePath id : string)
    (preprocessStyles : option bool) :
  styles d' = styles d ->
  genStyleCode d' resourcePath id preprocessStyles
  = genStyleCode d resourcePath id preprocessStyles.
Proof. intros H. unfold genStyleCode. now rewrite H. Qed.

Lemma getCustomBlock_customBlocks (d d' : SFCDescriptor) (resourcePath : string)
    (filter : string -> bool) :
  customBlocks d' = customBlocks d ->
  getCustomBlock d' resourcePath filter = getCustomBlock d resourcePath filter.
Proof. intros H. unfold getCustomBlock. now rewrite H. Qed.

End TextFacts.

Section AssemblyFacts.

Variable hash : string -> string.
Variable path_relative : string -> string -> string.
Variable path_basename : string -> string.
Variable parse : string -> string -> string -> SFCDescriptor * list CompilerError.
Variable TemplateOptions : Type.
Variable getTemplateCompilerOptions :
  Options -> SFCDescriptor -> string -> TemplateOptions.
Variable compileScript :
  option (SFCDescriptor -> string -> bool -> bool -> TemplateOptions -> SFCBlock).

(** X9. The diagnostics are handed to the host one by one, and the first
    one on which the host's [error] raises ends the transform: the
    diagnostics before it and that one are reported, those after it never
    are, nothing is returned, and the cache holds the parsed document. *)
Theorem reporting_stops_at_first_raise (code resourcePath : string)
    (options : Options) (sourceRoot : string) (isProduction isServer : bool)
    (filterCustomBlock : string -> bool) (pluginContext : TransformPluginContext)
    (w : World) (d : SFCDescriptor) (before : list CompilerError)
    (error : CompilerError) (after : list CompilerError) :
  parse code resourcePath sourceRoot = (d, (before ++ error :: after)%list) ->
  (forall x, In x before ->
     error_raises pluginContext (createRollupError resourcePath x) = false) ->
  error_raises pluginContext (createRollupError resourcePath error) = true ->
  transformSFCEntry hash path_relative path_basename parse TemplateOptions
    getTemplateCompilerOptions compileScript code resourcePath options sourceRoot
    isProduction isServer filterCustomBlock pluginContext w
  = (Throw (createRollupError resourcePath error),
     mkWorld (<[resourcePath := d]> (descriptorCache w))
       (reported w ++ map (createRollupError resourcePath) (before ++ [error]))).
Proof.
  intros Hparse Hbefore Hraise. unfold transformSFCEntry. rewrite Hparse.
  replace (negb (length (before ++ error :: after) =? 0)%nat) with true
    by (now destruct before).
  now rewrite (reportErrors_until_raise _ _ _ _ _ _ Hbefore Hraise).
Qed.

(** The lines of the module in full: the five texts of the sections, the
    scope attribute when a style section is scoped, the file name by build
    mode, and the export. *)
Lemma assemble_closed (d : SFCDescriptor) (resourcePath : string) (options : Options)
    (scopeId shortFilePath : string) (isProduction isServer : bool)
    (filterCustomBlock : string -> bool) :
  fst (assemble path_basename TemplateOptions getTemplateCompilerOptions
         compileScript d resourcePath options scopeId shortFilePath isProduction
         isServer filterCustomBlock)
  = push
      ([fst (genScriptCode TemplateOptions compileScript d resourcePath scopeId
               isProduction isServer
               (getTemplateCompilerOptions options d scopeId));
        templateImport d resourcePath scopeId isServer;
        genStyleCode d resourcePath scopeId (preprocessStyles options);
        getCustomBlock d resourcePath filterCustomBlock;
        renderReplace d isServer] ++
       (if existsb (fun s => scoped_truthy (scoped s)) (styles d)
        then [("script.__scopeId = " ++ JSON.stringify ("data-v-" ++ scopeId))%string]
        else []) ++
       (if negb isProduction
        then [("script.__file = " ++ JSON.stringify shortFilePath)%string]
        else if match exposeFilename options with Some b => b | None => false end
        then [("script.__file = " ++
               JSON.stringify (path_basename shortFilePath))%string]
        else []))%list
      "export default script".
Proof.
  pose proof (genScriptCode_fields TemplateOptions compileScript d resourcePath
                scopeId isProduction isServer
                (getTemplateCompilerOptions options d scopeId)) as Hfields.
  unfold assemble.
  destruct (genScriptCode _ _ _ _ _ _ _ _) as [scriptImport d'].
  cbn [fst snd] in *. destruct Hfields as (_ & _ & _ & Hstyles & Hblocks).
  rewrite (TextFacts.genStyleCode_styles d d' _ _ _ Hstyles).
  rewrite (TextFacts.getCustomBlock_customBlocks d d' _ _ Hblocks).
  destruct (existsb _ _), isProduction, (exposeFilename options) as [[|]|];
    reflexivity.
Qed.

(** X10. A document without diagnostics always gets a module: the result
    is never null, its source map is empty, nothing is reported, and the
    text is the lines of the sections joined by line feeds (script import,
    template import, style text, custom blocks, render re-binding), then
    [script.__scopeId] with [data-v-] and the scope token exactly when a
    style section is scoped, then [script.__file] with the normalized path
    outside production, with its base name in production when
    [exposeFilename] is set and not at all otherwise, and last the default
    export.  The style text and the custom blocks are those of the parsed
    document, whatever the script compiler returned. *)
Theorem module_text_without_diagnostics (code resourcePath : string)
    (options : Options) (sourceRoot : string) (isProduction isServer : bool)
    (filterCustomBlock : string -> bool) (pluginContext : TransformPluginContext)
    (w : World) (d : SFCDescriptor) :
  parse code resourcePath sourceRoot = (d, []) ->
  let id := scopeId hash path_relative code resourcePath sourceRoot isProduction in
  let short := shortFilePath path_relative sourceRoot resourcePath in
  let result :=
    transformSFCEntry hash path_relative path_basename parse TemplateOptions
      getTemplateCompilerOptions compileScript code resourcePath options
      sourceRoot isProduction isServer filterCustomBlock pluginContext w in
  fst result
  = Return (Some (mkResult
      (Str.join Str.nl
         ([fst (genScriptCode TemplateOptions compileScript d resourcePath id
                  isProduction isServer (getTemplateCompilerOptions options d id));
           templateImport d resourcePath id isServer;
           genStyleCode d resourcePath id (preprocessStyles options);
           getCustomBlock d resourcePath filterCustomBlock;
           renderReplace d isServer] ++
          (if existsb (fun s => scoped_truthy (scoped s)) (styles d)
           then [("script.__scopeId = " ++ JSON.stringify ("data-v-" ++ id))%string]
           else []) ++
          (if negb isProduction
           then [("script.__file = " ++ JSON.stringify short)%string]
           else if match exposeFilename options with Some b => b | None => false end
           then [("script.__file = " ++ JSON.stringify (path_basename short))%string]
           else []))%list ++
       Str.nl ++ "export default script") ""))
  /\ reported (snd result) = reported w.
Proof.
  intros Hparse id short result. subst result.
  rewrite (transform_without_diagnostics hash path_relative path_basename parse
             TemplateOptions getTemplateCompilerOptions compileScript code
             resourcePath options sourceRoot isProduction isServer
             filterCustomBlock pluginContext w d Hparse).
  cbn [fst snd reported]. split; [|reflexivity].
  fold id short. rewrite assemble_closed. cbn [app].
  now rewrite TextFacts.join_push.
Qed.

End AssemblyFacts.

(** X9 on three diagnostics and a host that raises on the second. *)
Lemma reporting_stops_witness :
  Examples.transform Examples.withCustomBlocks
    [Examples.unexpectedEnd; Examples.duplicateTemplate; Examples.unexpectedEnd]
    true false (Examples.raisingOn (message Examples.duplicateTemplate))
  = (Throw (createRollupError "/app/src/App.vue" Examples.duplicateTemplate),
     mkWorld (<["/app/src/App.vue" := Examples.withCustomBlocks]> ∅)
       [createRollupError "/app/src/App.vue" Examples.unexpectedEnd;
        createRollupError "/app/src/App.vue" Examples.duplicateTemplate]).
Proof.
  refine (reporting_stops_at_first_raise Examples.hash Examples.relative
            Examples.basename
            (Examples.parser Examples.withCustomBlocks
               [Examples.unexpectedEnd; Examples.duplicateTemplate;
                Examples.unexpectedEnd])
            unit (fun _ _ _ => tt) (Some Examples.compile)
            "<source>" "/app/src/App.vue" Examples.noOptions "/app" true false
            (fun type => String.eqb type "docs")
            (Examples.raisingOn (message Examples.duplicateTemplate))
            Examples.emptyWorld Examples.withCustomBlocks
            [Examples.unexpectedEnd] Examples.duplicateTemplate
            [Examples.unexpectedEnd] eq_refl _ eq_refl).
  intros x [<-|[]]. reflexivity.
Defined.

(** X10 on the document with a script and two custom blocks, in
    production. *)
Lemma module_text_witness :
  fst (Examples.transform Examples.withCustomBlocks [] true false
         Examples.recordingContext)
  = Return (Some (mkResult
      ("import script from " ++
       JSON.stringify "/app/src/App.vue?vue&type=script&lang.js" ++ Str.nl ++
       "export * from " ++
       JSON.stringify "/app/src/App.vue?vue&type=script&lang.js" ++ Str.nl ++
       Str.nl ++ Str.nl ++
       "import block1 from " ++
       JSON.stringify "/app/src/App.vue?vue&type=docs&index=1&lang.docs" ++ Str.nl ++
       "if (typeof block1 === 'function') block1(script)" ++ Str.nl ++ Str.nl ++
       Str.nl ++ "export default script") ""))
  /\ reported (snd (Examples.transform Examples.withCustomBlocks [] true false
                      Examples.recordingContext)) = [].
Proof.
  exact (module_text_without_diagnostics Examples.hash Examples.relative
           Examples.basename (Examples.parser Examples.withCustomBlocks [])
           unit (fun _ _ _ => tt) (Some Examples.compile)
           "<source>" "/app/src/App.vue" Examples.noOptions "/app" true false
           (fun type => String.eqb type "docs") Examples.recordingContext
           Examples.emptyWorld Examples.withCustomBlocks eq_refl).
Defined.

(** ** The script section and the render function *)

(** X11. The render re-binding follows the template import: both are
    empty, or the module imports [render] (with server rendering,
    [ssrRender]) from the template address and assigns that same name to
    the script.  No module assigns a render function that it did not
    import. *)
Theorem render_binding_follows_import (d : SFCDescriptor)
    (resourcePath id : string) (isServer : bool) :
  let name := if isServer then "ssrRender" else "render" in
  (templateImport d resourcePath id isServer = "" /\ renderReplace d isServer = "")
  \/ (exists t,
        template d = Some t /\
        templateImport d resourcePath id isServer
        = "import { " ++ name ++ " } from " ++
          JSON.stringify (templateRequest t resourcePath id) /\
        renderReplace d isServer = "script." ++ name ++ " = " ++ name).
Proof.
  unfold templateImport, renderReplace, hasTemplateImport, genTemplateCode.
  destruct (template d) as [t|]; [|now left].
  destruct isServer; cbn [orb].
  - right. now exists t.
  - destruct (scriptSetup d); cbn [negb]; [now left | right; now exists t].
Qed.

Module ScriptFacts.

Lemma genScriptCode_compiled (TemplateOptions : Type)
    (compile : SFCDescriptor -> string -> bool -> bool -> TemplateOptions -> SFCBlock)
    (d : SFCDescriptor) (resourcePath id : string) (isProd isServer : bool)
    (templateOptions : TemplateOptions) :
  script d <> None \/ scriptSetup d <> None ->
  let compiled := compile d id isProd (negb isServer) templateOptions in
  genScriptCode TemplateOptions (Some compile) d resourcePath id isProd isServer
    templateOptions
  = ("import script from " ++ JSON.stringify (scriptRequest compiled resourcePath) ++
     Str.nl ++ "export * from " ++
     JSON.stringify (scriptRequest compiled resourcePath),
     mkDescriptor (template d) (script d) (scriptSetup d) (Some compiled)
       (styles d) (customBlocks d)).
Proof.
  intros H compiled. unfold genScriptCode.
  destruct (script d) eqn:Hs, (scriptSetup d) eqn:Hss; cbn;
    rewrite ?StrFacts.app_assoc; try reflexivity.
  destruct H as [H|H]; contradiction.
Qed.

Lemma genScriptCode_placeholder (TemplateOptions : Type)
    (compileScript :
       option (SFCDescriptor -> string -> bool -> bool -> TemplateOptions -> SFCBlock))
    (d : SFCDescriptor) (resourcePath id : string) (isProd isServer : bool)
    (templateOptions : TemplateOptions) :
  script d = None ->
  scriptSetup d = None \/ compileScript = None /\ scriptCompiled d = None ->
  genScriptCode TemplateOptions compileScript d resourcePath id isProd isServer
    templateOptions
  = ("const script = {}", d).
Proof.
  intros Hs H. unfold genScriptCode. rewrite Hs.
  destruct (scriptSetup d) as [setup|] eqn:Hss; [|reflexivity].
  destruct H as [H|[-> Hc]]; [discriminate|]. now rewrite Hc, Hs.
Qed.

End ScriptFacts.

Section ScriptSectionFacts.

Variable hash : string -> string.
Variable path_relative : string -> string -> string.
Variable path_basename : string -> string.
Variable parse : string -> string -> string -> SFCDescriptor * list CompilerError.
Variable TemplateOptions : Type.
Variable getTemplateCompilerOptions :
  Options -> SFCDescriptor -> string -> TemplateOptions.

(** X12. When the document has a script or a script-setup section and the
    script compiler is there, the compiler is run once, with the scope
    token, the production flag and template inlining exactly when server
    rendering is off; the module imports, and re-exports from, the address
    of the block it returns (not of the script section as written), and the
    cached descriptor of the resource is the parsed one with that block as
    its compiled script. *)
Theorem compiled_script_imported_and_cached
    (compile : SFCDescriptor -> string -> bool -> bool -> TemplateOptions -> SFCBlock)
    (code resourcePath : string) (options : Options) (sourceRoot : string)
    (isProduction isServer : bool) (filterCustomBlock : string -> bool)
    (pluginContext : TransformPluginContext) (w : World) (d : SFCDescriptor) :
  parse code resourcePath sourceRoot = (d, []) ->
  script d <> None \/ scriptSetup d <> None ->
  let id := scopeId hash path_relative code resourcePath sourceRoot isProduction in
  let compiled :=
    compile d id isProduction (negb isServer)
      (getTemplateCompilerOptions options d id) in
  let result :=
    transformSFCEntry hash path_relative path_basename parse TemplateOptions
      getTemplateCompilerOptions (Some compile) code resourcePath options
      sourceRoot isProduction isServer filterCustomBlock pluginContext w in
  descriptorCache (snd result) !! resourcePath
  = Some (mkDescriptor (template d) (script d) (scriptSetup d) (Some compiled)
            (styles d) (customBlocks d))
  /\ exists rest,
       fst result
       = Return (Some (mkResult
           ("import script from " ++
            JSON.stringify (scriptRequest compiled resourcePath) ++ Str.nl ++
            "export * from " ++
            JSON.stringify (scriptRequest compiled resourcePath) ++ Str.nl ++
            rest) "")).
Proof.
  intros Hparse Hscript id compiled result. subst result.
  rewrite (transform_without_diagnostics hash path_relative path_basename parse
             TemplateOptions getTemplateCompilerOptions (Some compile) code
             resourcePath options sourceRoot isProduction isServer
             filterCustomBlock pluginContext w d Hparse).
  fold id.
  destruct (assemble_lines path_basename TemplateOptions
              getTemplateCompilerOptions (Some compile) d resourcePath options id
              (shortFilePath path_relative sourceRoot resourcePath)
              isProduction isServer filterCustomBlock)
    as (scriptImport & d' & rest & Hgen & ->).
  rewrite ScriptFacts.genScriptCode_compiled in Hgen by exact Hscript.
  pose proof (f_equal fst Hgen) as Himport. pose proof (f_equal snd Hgen) as Hd'.
  cbn [fst snd] in Himport, Hd'. subst scriptImport d'. clear Hgen.
  fold compiled. cbn [fst snd descriptorCache].
  split; [apply lookup_insert_eq|].
  cbn [app]. rewrite TextFacts.join_cons.
  match goal with
  | |- context [Str.join Str.nl ?lines] => exists (Str.join Str.nl lines)
  end.
  rewrite ?StrFacts.app_assoc. reflexivity.
Qed.

(** X13. When the document has no script section, and no script-setup
    section either or no script compiler to turn it into a script, the
    module starts with the empty script object [const script = {}], and the
    cached descriptor of the resource is the parsed one, untouched. *)
Theorem empty_script_object
    (compileScript :
       option (SFCDescriptor -> string -> bool -> bool -> TemplateOptions -> SFCBlock))
    (code resourcePath : string) (options : Options) (sourceRoot : string)
    (isProduction isServer : bool) (filterCustomBlock : string -> bool)
    (pluginContext : TransformPluginContext) (w : World) (d : SFCDescriptor) :
  parse code resourcePath sourceRoot = (d, []) ->
  script d = None ->
  scriptSetup d = None \/ compileScript = None /\ scriptCompiled d = None ->
  let result :=
    transformSFCEntry hash path_relative path_basename parse TemplateOptions
      getTemplateCompilerOptions compileScript code resourcePath options
      sourceRoot isProduction isServer filterCustomBlock pluginContext w in
  snd result = mkWorld (<[resourcePath := d]> (descriptorCache w)) (reported w)
  /\ exists rest,
       fst result
       = Return (Some (mkResult ("const script = {}" ++ Str.nl ++ rest) "")).
Proof.
  intros Hparse Hs Hsetup result. subst result.
  rewrite (transform_without_diagnostics hash path_relative path_basename parse
             TemplateOptions getTemplateCompilerOptions compileScript code
             resourcePath options sourceRoot isProduction isServer
             filterCustomBlock pluginContext w d Hparse).
  destruct (assemble_lines path_basename TemplateOptions
              getTemplateCompilerOptions compileScript d resourcePath options
              (scopeId hash path_relative code resourcePath sourceRoot isProduction)
              (shortFilePath path_relative sourceRoot resourcePath)
              isProduction isServer filterCustomBlock)
    as (scriptImport & d' & rest & Hgen & ->).
  rewrite ScriptFacts.genScriptCode_placeholder in Hgen by assumption.
  pose proof (f_equal fst Hgen) as Himport. pose proof (f_equal snd Hgen) as Hd'.
  cbn [fst snd] in Himport, Hd'. subst scriptImport d'. clear Hgen.
  cbn [fst snd].
  split; [now rewrite insert_insert_eq|].
  cbn [app]. rewrite TextFacts.join_cons.
  match goal with
  | |- context [Str.join Str.nl ?lines] => exists (Str.join Str.nl lines)
  end.
  reflexivity.
Qed.

End ScriptSectionFacts.

(** X12 on the document with a template and a script-setup section. *)
Lemma compiled_script_witness :
  descriptorCache
    (snd (Examples.transform Examples.withScriptSetup [] false false
            Examples.recordingContext)) !! "/app/src/App.vue"
  = Some (mkDescriptor (Some (Examples.block "template" [])) None
            (Some (Examples.block "script" [("setup", AttrTrue)]))
            (Some (Examples.block "script" [("setup", AttrTrue)])) [] [])
  /\ exists rest,
       fst (Examples.transform Examples.withScriptSetup [] false false
              Examples.recordingContext)
       = Return (Some (mkResult
           ("import script from " ++
            JSON.stringify "/app/src/App.vue?vue&type=script&setup=true&lang.js" ++
            Str.nl ++ "export * from " ++
            JSON.stringify "/app/src/App.vue?vue&type=script&setup=true&lang.js" ++
            Str.nl ++ rest) "")).
Proof.
  assert (Hscript : script Examples.withScriptSetup <> None \/
                    scriptSetup Examples.withScriptSetup <> None)
    by (right; discriminate).
  exact (compiled_script_imported_and_cached Examples.hash Examples.relative
           Examples.basename (Examples.parser Examples.withScriptSetup [])
           unit (fun _ _ _ => tt) Examples.compile
           "<source>" "/app/src/App.vue" Examples.noOptions "/app" false false
           (fun type => String.eqb type "docs") Examples.recordingContext
           Examples.emptyWorld Examples.withScriptSetup eq_refl Hscript).
Defined.

(** X13 on a document that is a template and nothing else. *)
Lemma empty_script_object_witness :
  snd (Examples.transform
         (mkDescriptor (Some (Examples.block "template" [])) None None None [] [])
         [] true false Examples.recordingContext)
  = mkWorld
      (<["/app/src/App.vue" :=
           mkDescriptor (Some (Examples.block "template" [])) None None None [] []]> ∅)
      []
  /\ exists rest,
       fst (Examples.transform
              (mkDescriptor (Some (Examples.block "template" [])) None None None
                 [] [])
              [] true false Examples.recordingContext)
       = Return (Some (mkResult ("const script = {}" ++ Str.nl ++ rest) "")).
Proof.
  exact (empty_script_object Examples.hash Examples.relative Examples.basename
           (Examples.parser
              (mkDescriptor (Some (Examples.block "template" [])) None None None
                 [] []) [])
           unit (fun _ _ _ => tt) (Some Examples.compile)
           "<source>" "/app/src/App.vue" Examples.noOptions "/app" true false
           (fun type => String.eqb type "docs") Examples.recordingContext
           Examples.emptyWorld
           (mkDescriptor (Some (Examples.block "template" [])) None None None [] [])
           eq_refl eq_refl (or_introl eq_refl)).
Defined.
